(** * Notifications building block: subscription synchronizer, message
      fan-out and access policy

    A shallow embedding of the Go packages [notifications/core/model]
    (user.go, message.go) and [notifications/core] (services.go), and the
    properties of the core operations proved over it.

    Conventions of the embedding.
    - A Go [*string] is an address or nil.  The Go operator [==] on two
      [*string] operands compares the addresses, not the strings stored
      there; the strings live in a memory that maps addresses to values.
    - A Go pointer to a struct ([*Sender], [*ShibbolethUser], [*Message])
      is an [option] of the record: the code never compares such pointers,
      it only tests them against nil and reads their fields.
    - A Go slice that the code tests against nil is an [option (list _)];
      a slice that is only measured and ranged over is a [list].
    - A Go [error] is [None] for nil and [Some msg] for an error whose
      [Error()] text is [msg].
    - A run-time panic (nil pointer dereference) is the outcome
      [Panicked]. *)

From stdpp Require Import base option strings list gmap.

Open Scope string_scope.
Open Scope list_scope.

(** ** Outcomes of Go code that may panic *)

Inductive outcome (A : Type) : Type :=
  | Returned (a : A)
  | Panicked.
Arguments Returned {A} a.
Arguments Panicked {A}.

(** ** Pointers to strings *)

Definition loc := positive.

(** [*string]: nil is [None]. *)
Definition strptr := option loc.

(** [p == q] on two [*string] values: both nil, or the same address. *)
Definition ptr_eqb (p q : strptr) : bool := bool_decide (p = q).

(** The string a pointer leads to, if any. *)
Definition load (mem : gmap loc string) (p : strptr) : option string :=
  p ≫= λ l, mem !! l.

Definition error := option string.

(** * Package model *)
Module model.

(** user.go: [type User struct] *)
Record User := {
  User_ID : string;
  User_Tokens : option (list string);
  User_UserID : strptr;
  User_Topics : option (list string);
  User_DateCreated : Z;
  User_DateUpdated : Z
}.

Definition set_Tokens (t : User) (tokens : option (list string)) : User :=
  {| User_ID := User_ID t; User_Tokens := tokens;
     User_UserID := User_UserID t; User_Topics := User_Topics t;
     User_DateCreated := User_DateCreated t;
     User_DateUpdated := User_DateUpdated t |}.

Definition set_Topics (t : User) (topics : option (list string)) : User :=
  {| User_ID := User_ID t; User_Tokens := User_Tokens t;
     User_UserID := User_UserID t; User_Topics := topics;
     User_DateCreated := User_DateCreated t;
     User_DateUpdated := User_DateUpdated t |}.

(** The elements of a slice; a nil slice has none. *)
Definition elems (s : option (list string)) : list string := default [] s.

(** [for _, entry := range l { if x == entry { exists = true; break } }] *)
Fixpoint range_exists (x : string) (l : list string) : bool :=
  match l with
  | [] => false
  | entry :: rest => if bool_decide (x = entry) then true else range_exists x rest
  end.

(** [for _, entry := range l { if entry != x { acc = append(acc, entry) } }] *)
Fixpoint range_keep (x : string) (l : list string) (acc : list string) : list string :=
  match l with
  | [] => acc
  | entry :: rest =>
      range_keep x rest (if bool_decide (entry ≠ x) then acc ++ [entry] else acc)
  end.

(** [func (t *User) AddToken(token string)]: the receiver after the call. *)
Definition AddToken (t : User) (token : string) : User :=
  let t := match User_Tokens t with
           | None => set_Tokens t (Some [])
           | Some _ => t
           end in
  let exists_ := range_exists token (elems (User_Tokens t)) in
  if negb exists_ then set_Tokens t (Some (elems (User_Tokens t) ++ [token]))
  else t.

(** [func (t *User) RemoveToken(token string)] *)
Definition RemoveToken (t : User) (token : string) : User :=
  match User_Tokens t with
  | Some entries => set_Tokens t (Some (range_keep token entries []))
  | None => t
  end.

(** [func (t *User) AddTopic(topic string)] *)
Definition AddTopic (t : User) (topic : string) : User :=
  let t := match User_Topics t with
           | None => set_Topics t (Some [])
           | Some _ => t
           end in
  let exists_ := range_exists topic (elems (User_Topics t)) in
  if negb exists_ then set_Topics t (Some (elems (User_Topics t) ++ [topic]))
  else t.

(** [func (t *User) RemoveTopic(topic string)] *)
Definition RemoveTopic (t : User) (topic : string) : User :=
  match User_Topics t with
  | Some entries => set_Topics t (Some (range_keep topic entries []))
  | None => t
  end.

(** user.go: [type ShibbolethUser struct] *)
Record ShibbolethUser := {
  Uin : strptr;
  Email : strptr;
  Phone : strptr;
  Membership : option (list string)
}.

(** [type Recipient struct] *)
Record Recipient := {
  Recipient_UserID : strptr;
  Recipient_Name : strptr;
  NotificationDisabled : bool
}.

(** message.go: [type Sender struct] *)
Record Sender := {
  Sender_Type : string;
  Sender_User : option ShibbolethUser
}.

(** message.go: [type Message struct]; times are Unix instants. *)
Record Message := {
  Message_ID : strptr;
  Message_DateCreated : option Z;
  Message_DateUpdated : option Z;
  Priority : Z;
  Recipients : list Recipient;
  Topic : strptr;
  Subject : string;
  Message_Sender : option Sender;
  Body : string;
  Data : gmap string string
}.

Definition set_Sender (m : Message) (s : option Sender) : Message :=
  {| Message_ID := Message_ID m;
     Message_DateCreated := Message_DateCreated m;
     Message_DateUpdated := Message_DateUpdated m;
     Priority := Priority m; Recipients := Recipients m;
     Topic := Topic m; Subject := Subject m;
     Message_Sender := s; Body := Body m; Data := Data m |}.

(** [for _, recipient := range m.Recipients {
       if recipient.UserID == user.Email { return true } }]:
    [true] when the loop returns, [false] when it runs to its end. *)
Fixpoint range_recipients (rs : list Recipient) (email : strptr) : bool :=
  match rs with
  | [] => false
  | recipient :: rest =>
      if ptr_eqb (Recipient_UserID recipient) email then true
      else range_recipients rest email
  end.

(** [func (m *Message) HasUser(user *ShibbolethUser) bool], for a
    non-nil receiver [m]. *)
Definition HasUser (m : Message) (user : option ShibbolethUser) : outcome bool :=
  match user with
  | Some u =>
      if range_recipients (Recipients m) (Email u) then Returned true
      else
        match Message_Sender m with
        | None => Panicked                      (* m.Sender.User, m.Sender nil *)
        | Some sender =>
            match Sender_User sender with
            | Some su =>
                if ptr_eqb (Email u) (Email su) then Returned true
                else Returned false
            | None => Returned false
            end
        end
  | None => Returned false
  end.

End model.

(** * Package core *)
Module core.
Import model.

(** ** The calls the core issues to its collaborators

    One constructor per method of the [Storage] and [Firebase]
    interfaces that services.go calls, with the arguments of the call,
    and one for a line written to standard output. *)
Inductive Call : Type :=
  | StorageSubscribeToTopic (token : string) (userID : strptr) (topic : string)
  | StorageUnsubscribeToTopic (token : string) (userID : strptr) (topic : string)
  | StorageCreateMessage (message : Message)
  | StorageGetFirebaseTokensByRecipients (recipients : list Recipient)
  | StorageGetMessage (ID : string)
  | StorageUpdateMessage (message : Message)
  | StorageDeleteUserMessage (userID messageID : string)
  | FirebaseSendNotificationToToken (token title body : string) (data : gmap string string)
  | FirebaseSendNotificationToTopic (topic title body : string)
  | FirebaseSubscribeToTopic (token topic : string)
  | FirebaseUnsubscribeToTopic (token topic : string)
  | Printf (line : string).

Definition is_storage_call (c : Call) : bool :=
  match c with
  | StorageSubscribeToTopic _ _ _ | StorageUnsubscribeToTopic _ _ _
  | StorageCreateMessage _ | StorageGetFirebaseTokensByRecipients _
  | StorageGetMessage _ | StorageUpdateMessage _
  | StorageDeleteUserMessage _ _ => true
  | _ => false
  end.

(** A delivery attempt: a per-token send or a topic broadcast. *)
Definition is_delivery (c : Call) : bool :=
  match c with
  | FirebaseSendNotificationToToken _ _ _ _ | FirebaseSendNotificationToTopic _ _ _ => true
  | _ => false
  end.

(** The tokens of the per-token sends of a call sequence, in order. *)
Fixpoint sent_tokens (cs : list Call) : list string :=
  match cs with
  | [] => []
  | FirebaseSendNotificationToToken token _ _ _ :: rest => token :: sent_tokens rest
  | _ :: rest => sent_tokens rest
  end.

(** ** The collaborators

    The adapters behind the two interfaces are outside the core; each
    method is a function of its arguments and of the collaborators'
    state [W], giving its results and the next state.  An adapter
    neither panics nor writes to the memory of its caller. *)
Record Storage (W : Type) := {
  storage_SubscribeToTopic : string → strptr → string → W → error * W;
  storage_UnsubscribeToTopic : string → strptr → string → W → error * W;
  storage_CreateMessage : Message → W → (option Message * error) * W;
  storage_GetFirebaseTokensByRecipients :
    list Recipient → W → (list string * error) * W;
  storage_GetMessage : string → W → (option Message * error) * W;
  storage_UpdateMessage : Message → W → (option Message * error) * W;
  storage_DeleteUserMessage : string → string → W → error * W
}.

Record Firebase (W : Type) := {
  firebase_SendNotificationToToken :
    string → string → string → gmap string string → W → error * W;
  firebase_SendNotificationToTopic : string → string → string → W → error * W;
  firebase_SubscribeToTopic : string → string → W → error * W;
  firebase_UnsubscribeToTopic : string → string → W → error * W
}.

(** [type Application struct] *)
Record Application (W : Type) := {
  version : string;
  storage : Storage W;
  firebase : Firebase W
}.

Arguments storage_SubscribeToTopic {W} _ _ _ _ _.
Arguments storage_UnsubscribeToTopic {W} _ _ _ _ _.
Arguments storage_CreateMessage {W} _ _ _.
Arguments storage_GetFirebaseTokensByRecipients {W} _ _ _.
Arguments storage_GetMessage {W} _ _ _.
Arguments storage_UpdateMessage {W} _ _ _.
Arguments storage_DeleteUserMessage {W} _ _ _ _.
Arguments firebase_SendNotificationToToken {W} _ _ _ _ _ _.
Arguments firebase_SendNotificationToTopic {W} _ _ _ _ _.
Arguments firebase_SubscribeToTopic {W} _ _ _ _.
Arguments firebase_UnsubscribeToTopic {W} _ _ _ _.
Arguments version {W} _.
Arguments storage {W} _.
Arguments firebase {W} _.

(** ** Machine state and the monad of core operations *)

(** The memory holding the strings behind [*string] values, the state of
    the collaborators, and the calls issued so far, oldest first. *)
Record machine (W : Type) := {
  memory : gmap loc string;
  world : W;
  calls : list Call
}.
Arguments memory {W} _.
Arguments world {W} _.
Arguments calls {W} _.

Definition Go (W A : Type) : Type := machine W → outcome A * machine W.

Section monad.
Context {W : Type}.

Definition ret {A} (a : A) : Go W A := λ s, (Returned a, s).

Definition bind {A B} (c : Go W A) (k : A → Go W B) : Go W B :=
  λ s, match c s with
       | (Returned a, s') => k a s'
       | (Panicked, s') => (Panicked, s')
       end.

Definition panic {A} : Go W A := λ s, (Panicked, s).

(** Issue a call to a collaborator: it is appended to the record of
    calls, and the collaborators' state moves on. *)
Definition call {A} (c : Call) (method : W → A * W) : Go W A :=
  λ s, let '(r, w) := method (world s) in
       (Returned r, {| memory := memory s; world := w; calls := calls s ++ [c] |}).

(** [fmt.Printf]: a line on standard output. *)
Definition printf (line : string) : Go W unit :=
  λ s, (Returned tt,
        {| memory := memory s; world := world s; calls := calls s ++ [Printf line] |}).

(** [*p] for a [*string]: nil panics.  Go has no pointer to an address
    that holds nothing; here such a pointer panics as nil does. *)
Definition deref (p : strptr) : Go W string :=
  λ s, match load (memory s) p with
       | Some v => (Returned v, s)
       | None => (Panicked, s)
       end.

(** [p.field] for a pointer to a struct: nil panics. *)
Definition through {A} (p : option A) : Go W A :=
  match p with
  | Some a => ret a
  | None => panic
  end.
End monad.

Notation "'let*' pat := c 'in' k" := (bind c (λ x, match x with pat => k end))
  (at level 10, pat pattern, c at level 100, k at level 200).
Notation "c ;;; k" := (bind c (λ _, k))
  (at level 100, right associativity).

(** [for _, x := range xs { body }] *)
Fixpoint for_range {W A} (xs : list A) (body : A → Go W unit) : Go W unit :=
  match xs with
  | [] => ret tt
  | x :: rest => body x ;;; for_range rest body
  end.

(** The text [fmt] gives an [error] under the verb [%s]. *)
Definition fmt_error (e : error) : string :=
  match e with
  | Some msg => msg
  | None => "%!s(<nil>)"
  end.

Definition err_already_sent (id : string) : string :=
  "message with id (" +:+ id +:+ "): is already sent".
Definition err_only_creator : string :=
  "only creator can update the original message".
Definition err_missing : string := "missing id or record".

(** ** services.go *)
Section services.
Context {W : Type} (app : Application W).

(** [func (app *Application) subscribeToTopic] *)
Definition subscribeToTopic (token : string) (user : option ShibbolethUser)
    (topic : string) : Go W error :=
  match user with
  | Some u =>
      let* err := call (StorageSubscribeToTopic token (Email u) topic)
               (storage_SubscribeToTopic (storage app) token (Email u) topic) in
      match err with
      | None =>
          call (FirebaseSubscribeToTopic token topic)
            (firebase_SubscribeToTopic (firebase app) token topic)
      | Some _ => ret err
      end
  | None =>
      if bool_decide (token ≠ "") then
        call (FirebaseSubscribeToTopic token topic)
          (firebase_SubscribeToTopic (firebase app) token topic)
      else ret None
  end.

(** [func (app *Application) unsubscribeToTopic] *)
Definition unsubscribeToTopic (token : string) (user : option ShibbolethUser)
    (topic : string) : Go W error :=
  match user with
  | Some u =>
      let* err := call (StorageUnsubscribeToTopic token (Email u) topic)
               (storage_UnsubscribeToTopic (storage app) token (Email u) topic) in
      match err with
      | None =>
          call (FirebaseUnsubscribeToTopic token topic)
            (firebase_UnsubscribeToTopic (firebase app) token topic)
      | Some _ => ret err
      end
  | None =>
      if bool_decide (token ≠ "") then
        call (FirebaseUnsubscribeToTopic token topic)
          (firebase_UnsubscribeToTopic (firebase app) token topic)
      else ret None
  end.

(** The sender stamped on a draft (services.go, lines 80 to 84). *)
Definition stamp_sender (user : option ShibbolethUser) : Sender :=
  match user with
  | Some u =>
      {| Sender_Type := "user";
         Sender_User := Some {| Uin := Uin u; Email := Email u;
                                Phone := Phone u; Membership := None |} |}
  | None => {| Sender_Type := "system"; Sender_User := None |}
  end.

(** The body of the loop over the resolved tokens; [err] is the
    variable the [Printf] names, which is not [sendErr]. *)
Definition send_to_token (message : Message) (err : error) (token : string)
    : Go W unit :=
  let* sendErr := call (FirebaseSendNotificationToToken token (Subject message)
                     (Body message) (Data message))
               (firebase_SendNotificationToToken (firebase app) token
                  (Subject message) (Body message) (Data message)) in
  match sendErr with
  | Some _ =>
      printf ("error send notification to token (" +:+ token +:+ "): "
              +:+ fmt_error err)
  | None => ret tt
  end.

(** Lines 104 to 108: [if err != nil { return nil, err }]
    [return persistedMessage, err]. *)
Definition finish (persistedMessage : option Message) (err : error)
    : Go W (option Message * error) :=
  match err with
  | Some _ => ret (None, err)
  | None => ret (persistedMessage, err)
  end.

(** [func (app *Application) createMessage] *)
Definition createMessage (user : option ShibbolethUser) (message : Message)
    : Go W (option Message * error) :=
  match Message_ID message with
  | Some _ =>
      let* id := deref (Message_ID message) in
      ret (None, Some (err_already_sent id))
  | None =>
      let message := set_Sender message (Some (stamp_sender user)) in
      let* (persistedMessage, err) :=
        call (StorageCreateMessage message)
          (storage_CreateMessage (storage app) message) in
      if bool_decide (0 < length (Recipients message)) then
        (* [tokens, err := ...] declares a second [err] in this block *)
        let* (tokens, err') :=
          call (StorageGetFirebaseTokensByRecipients (Recipients message))
            (storage_GetFirebaseTokensByRecipients (storage app)
               (Recipients message)) in
        match err' with
        | Some _ => ret (None, err')
        | None =>
            (if bool_decide (0 < length tokens) then
               for_range tokens (send_to_token message err')
             else ret tt) ;;;
            finish persistedMessage err
        end
      else
        match Topic message with
        | Some _ =>
            let* topic := deref (Topic message) in
            let* err := call (FirebaseSendNotificationToTopic topic
                           (Subject message) (Body message))
                     (firebase_SendNotificationToTopic (firebase app) topic
                        (Subject message) (Body message)) in
            finish persistedMessage err
        | None => finish persistedMessage err
        end
  end.

(** [func (app *Application) updateMessage] *)
Definition updateMessage (user : option ShibbolethUser) (message : Message)
    : Go W (option Message * error) :=
  match Message_ID message with
  | Some _ =>
      let* id := deref (Message_ID message) in
      let* (persistedMessage, err) :=
        call (StorageGetMessage id) (storage_GetMessage (storage app) id) in
      match err, persistedMessage with
      | None, Some persisted =>
          let* sender := through (Message_Sender persisted) in
          match Sender_User sender with
          | Some su =>
              let* u := through user in
              if ptr_eqb (Email su) (Email u) then
                call (StorageUpdateMessage message)
                  (storage_UpdateMessage (storage app) message)
              else ret (None, Some err_only_creator)
          | None => ret (None, Some err_only_creator)
          end
      | _, _ => ret (None, Some err_missing)
      end
  | None => ret (None, Some err_missing)
  end.

(** [func (app *Application) deleteUserMessage] *)
Definition deleteUserMessage (user : option ShibbolethUser) (messageID : string)
    : Go W error :=
  let* u := through user in
  let* email := deref (Email u) in
  call (StorageDeleteUserMessage email messageID)
    (storage_DeleteUserMessage (storage app) email messageID).
End services.

End core.

(** * Notions the properties are stated with *)
Module notions.
Import model core.

(** Standing, in the words of the access policy: the identity is
    present and carries an e-mail address, and that address is the
    e-mail address of the message's sender user or the user id of one
    of its recipients.  Addresses are compared as strings, read from
    memory. *)
Definition has_standing (mem : gmap loc string) (m : Message)
    (user : option ShibbolethUser) : Prop :=
  ∃ u email, user = Some u ∧ load mem (Email u) = Some email ∧
    ((∃ sender su, Message_Sender m = Some sender ∧
                   Sender_User sender = Some su ∧
                   load mem (Email su) = Some email) ∨
     (∃ r, r ∈ Recipients m ∧ load mem (Recipient_UserID r) = Some email)).

(** An operation that returned a non-nil error. *)
Definition failed (o : outcome error) : Prop := ∃ e, o = Returned (Some e).

End notions.

(** * A laboratory: concrete memory, collaborators and inputs

  Test doubles for the two adapters, used to run the core operations on
  concrete inputs.  The collaborators' state is the table of stored
  messages, keyed by message id. *)
Module lab.
Import model core.

(** Addresses 1 and 2 hold two separate copies of Bob's e-mail address,
    addresses 6 and 3 two copies of Alice's: the first of each pair is
    decoded with a stored message, the second with an identity. *)
Definition mem : gmap loc string :=
  <[1%positive := "bob@illinois.edu"]>
  (<[2%positive := "bob@illinois.edu"]>
  (<[3%positive := "alice@illinois.edu"]>
  (<[4%positive := "sports"]>
  (<[5%positive := "m1"]>
  (<[6%positive := "alice@illinois.edu"]> ∅))))).

Definition bob : ShibbolethUser :=
  {| Uin := None; Email := Some 2%positive; Phone := None; Membership := None |}.

Definition alice : ShibbolethUser :=
  {| Uin := None; Email := Some 3%positive; Phone := None; Membership := None |}.

(** Alice's identity as the store keeps it in the sender of a message. *)
Definition alice_as_stored : ShibbolethUser :=
  {| Uin := None; Email := Some 6%positive; Phone := None; Membership := None |}.

(** An identity decoded without an e-mail address. *)
Definition nobody : ShibbolethUser :=
  {| Uin := None; Email := None; Phone := None; Membership := None |}.

Definition to_bob : Recipient :=
  {| Recipient_UserID := Some 1%positive; Recipient_Name := None;
     NotificationDisabled := false |}.

Definition draft (recipients : list Recipient) (topic : strptr) : Message :=
  {| Message_ID := None; Message_DateCreated := None;
     Message_DateUpdated := None; Priority := 10;
     Recipients := recipients; Topic := topic; Subject := "Game day";
     Message_Sender := None; Body := "Kick-off at noon"; Data := ∅ |}.

(** The message the store assigns an id to: address 5 holds ["m1"]. *)
Definition with_id (m : Message) : Message :=
  {| Message_ID := Some 5%positive;
     Message_DateCreated := Some 1700000000%Z;
     Message_DateUpdated := Message_DateUpdated m;
     Priority := Priority m; Recipients := Recipients m;
     Topic := Topic m; Subject := Subject m;
     Message_Sender := Message_Sender m; Body := Body m; Data := Data m |}.

(** A system message to Bob, as loaded from the store. *)
Definition system_to_bob : Message :=
  with_id (set_Sender (draft [to_bob] None)
             (Some {| Sender_Type := "system"; Sender_User := None |})).

(** A message Alice sent to Bob, as loaded from the store. *)
Definition alice_to_bob : Message :=
  with_id (set_Sender (draft [to_bob] None)
             (Some {| Sender_Type := "user"; Sender_User := Some alice_as_stored |})).

(** A stored document that carries no sender. *)
Definition unsigned_to_bob : Message := with_id (draft [to_bob] None).

Definition unavailable : error := Some "storage: unavailable".
Definition rejected : error := Some "firebase: rejected".

(** A store whose writes succeed when [writable], that resolves every
    recipient list to [device_tokens], and that serves reads. *)
Definition lab_storage (writable : bool) (device_tokens : list string)
    : Storage (gmap string Message) :=
  {| storage_SubscribeToTopic := λ _ _ _ w,
       (if writable then None else unavailable, w);
     storage_UnsubscribeToTopic := λ _ _ _ w,
       (if writable then None else unavailable, w);
     storage_CreateMessage := λ m w,
       if writable then ((Some (with_id m), None), <["m1" := with_id m]> w)
       else ((None, unavailable), w);
     storage_GetFirebaseTokensByRecipients := λ _ w, ((device_tokens, None), w);
     storage_GetMessage := λ id w, ((w !! id, None), w);
     storage_UpdateMessage := λ m w,
       if writable then ((Some m, None), <["m1" := m]> w)
       else ((None, unavailable), w);
     storage_DeleteUserMessage := λ _ _ w,
       (if writable then None else unavailable, w) |}.

(** A gateway that is [up] or down, and that rejects the sends to
    [bad_tokens]. *)
Definition lab_firebase (up : bool) (bad_tokens : list string)
    : Firebase (gmap string Message) :=
  {| firebase_SendNotificationToToken := λ token _ _ _ w,
       (if bool_decide (token ∈ bad_tokens) then rejected else None, w);
     firebase_SendNotificationToTopic := λ _ _ _ w,
       (if up then None else rejected, w);
     firebase_SubscribeToTopic := λ _ _ w, (if up then None else rejected, w);
     firebase_UnsubscribeToTopic := λ _ _ w, (if up then None else rejected, w) |}.

Definition lab_app (writable : bool) (device_tokens : list string)
    (up : bool) (bad_tokens : list string) : Application (gmap string Message) :=
  {| version := "dev";
     storage := lab_storage writable device_tokens;
     firebase := lab_firebase up bad_tokens |}.

(** The machine before an operation: nothing called yet. *)
Definition boot (stored : gmap string Message) : machine (gmap string Message) :=
  {| memory := mem; world := stored; calls := [] |}.

Definition carol : User :=
  {| User_ID := "u-1"; User_Tokens := Some ["T1"]; User_UserID := Some 3%positive;
     User_Topics := Some ["sports"]; User_DateCreated := 0; User_DateUpdated := 0 |}.

End lab.

(** * What a record of calls shows *)
Module observe.
Import model core.

(** Any call to the push gateway. *)
Definition is_gateway_call (c : Call) : bool :=
  match c with
  | FirebaseSendNotificationToToken _ _ _ _ | FirebaseSendNotificationToTopic _ _ _
  | FirebaseSubscribeToTopic _ _ | FirebaseUnsubscribeToTopic _ _ => true
  | _ => false
  end.

(** The lines written to standard output, in order. *)
Fixpoint printed (cs : list Call) : list string :=
  match cs with
  | [] => []
  | Printf line :: rest => line :: printed rest
  | _ :: rest => printed rest
  end.

(** The send of [message] to one token. *)
Definition send_of (message : Message) (token : string) : Call :=
  FirebaseSendNotificationToToken token (Subject message) (Body message)
    (Data message).

(** The line the loop of [createMessage] prints for a send that failed:
    the [err] it formats is nil there. *)
Definition failed_send_line (token : string) : string :=
  "error send notification to token (" +:+ token +:+ "): %!s(<nil>)".

End observe.

(** * Package main: main.go *)
Module main.

(** What the process does to the outside, in order. *)
Inductive Event : Type :=
  | LogPrintf (format : string) (args : list string)
  | LogFatal (message : string)
  | StorageAdapterStart (mongoDBAuth mongoDBName mongoTimeout : string)
  | FirebaseAdapterStart (firebaseAuth firebaseProjectID : string)
  | ApplicationStart (version build : string)
  | WebAdapterStart (host port internalAPIKey coreAuthPrivateKey : string).

(** The package variables [Version] and [Build], the environment of the
    process, and its events so far. *)
Record process := {
  Version : string;
  Build : string;
  environ : gmap string string;
  events : list Event
}.

(** [log.Fatal] prints and calls [os.Exit(1)]: nothing runs after it. *)
Inductive exit (A : Type) : Type :=
  | Running (a : A)
  | Exited (code : Z).
Arguments Running {A} a.
Arguments Exited {A} code.

Definition Proc (A : Type) : Type := process → exit A * process.

Definition pret {A} (a : A) : Proc A := λ p, (Running a, p).

Definition pbind {A B} (c : Proc A) (k : A → Proc B) : Proc B :=
  λ p, match c p with
       | (Running a, p') => k a p'
       | (Exited code, p') => (Exited code, p')
       end.

Definition emit (e : Event) : Proc unit :=
  λ p, (Running tt,
        {| Version := Version p; Build := Build p; environ := environ p;
           events := events p ++ [e] |}).

(** [log.Fatal(message)] *)
Definition log_Fatal {A} (message : string) : Proc A :=
  λ p, (Exited 1,
        {| Version := Version p; Build := Build p; environ := environ p;
           events := events p ++ [LogFatal message] |}).

(** [log.Printf(format, args...)] *)
Definition log_Printf (format : string) (args : list string) : Proc unit :=
  emit (LogPrintf format args).

Notation "'do*' x := c 'in' k" := (pbind c (λ x, k))
  (at level 10, x name, c at level 100, k at level 200).
Notation "c ;;;; k" := (pbind c (λ _, k))
  (at level 100, right associativity).

(** [func printEnvVar(name string, value string)] *)
Definition printEnvVar (name value : string) : Proc unit :=
  λ p, if bool_decide (Version p = "dev")
       then log_Printf "%s=%s" [name; value] p
       else pret tt p.

(** [func getEnvKey(key string, required bool) string];
    [os.LookupEnv] gives the value and whether the variable is set. *)
Definition getEnvKey (key : string) (required : bool) : Proc string :=
  λ p,
    let value := default "" (environ p !! key) in
    let exist := bool_decide (is_Some (environ p !! key)) in
    ((if negb exist then
        if required then
          log_Fatal ("No provided environment variable for " +:+ key)
        else
          log_Printf ("No provided environment variable for " +:+ key) []
      else pret tt) ;;;;
     printEnvVar key value ;;;;
     pret value) p.

(** The two adapters main starts are outside this file: what their
    [Start] returns, given the arguments of their constructors. *)
Record Drivers := {
  storage_Start : string → string → string → error;
  firebase_Start : string → string → error
}.

(** [func main()] *)
Definition main (drivers : Drivers) : Proc unit :=
  (λ p, if bool_decide (String.length (Version p) = 0)
        then (Running tt,
              {| Version := "dev"; Build := Build p; environ := environ p;
                 events := events p |})
        else (Running tt, p)) ;;;;
  do* port := getEnvKey "PORT" true in
  do* mongoDBAuth := getEnvKey "MONGO_AUTH" true in
  do* mongoDBName := getEnvKey "MONGO_DATABASE" true in
  do* mongoTimeout := getEnvKey "MONGO_TIMEOUT" false in
  emit (StorageAdapterStart mongoDBAuth mongoDBName mongoTimeout) ;;;;
  (match storage_Start drivers mongoDBAuth mongoDBName mongoTimeout with
   | Some e => log_Fatal ("Cannot start the mongoDB adapter - " +:+ e)
   | None => pret tt
   end) ;;;;
  do* firebaseProjectID := getEnvKey "FIREBASE_PROJECT_ID" true in
  do* firebaseAuth := getEnvKey "FIREBASE_AUTH" true in
  emit (FirebaseAdapterStart firebaseAuth firebaseProjectID) ;;;;
  (match firebase_Start drivers firebaseAuth firebaseProjectID with
   | Some e => log_Fatal ("Cannot start the Firebase adapter - " +:+ e)
   | None => pret tt
   end) ;;;;
  (λ p, emit (ApplicationStart (Version p) (Build p)) p) ;;;;
  do* host := getEnvKey "HOST" true in
  do* internalAPIKey := getEnvKey "INTERNAL_API_KEY" true in
  do* coreAuthPrivateKey := getEnvKey "ROKWIRE_CORE_AUTH_PRIVATE_KEY" true in
  emit (WebAdapterStart host port internalAPIKey coreAuthPrivateKey).

(** The events that are not log lines. *)
Definition is_start (e : Event) : bool :=
  match e with
  | LogPrintf _ _ | LogFatal _ => false
  | _ => true
  end.

(** The lines [printEnvVar] writes: name and value of a variable. *)
Definition is_value_line (e : Event) : bool :=
  match e with
  | LogPrintf format _ => bool_decide (format = "%s=%s")
  | _ => false
  end.

(** A complete environment, drivers that start, and a process built
    without version. *)
Definition full_environ : gmap string string :=
  <["PORT" := "80"]>
  (<["MONGO_AUTH" := "mongodb://svc:s3cret@db"]>
  (<["MONGO_DATABASE" := "notifications"]>
  (<["FIREBASE_PROJECT_ID" := "illinois"]>
  (<["FIREBASE_AUTH" := "{key}"]>
  (<["HOST" := "localhost"]>
  (<["INTERNAL_API_KEY" := "k1"]>
  (<["ROKWIRE_CORE_AUTH_PRIVATE_KEY" := "pem"]> ∅))))))).

Definition good_drivers : Drivers :=
  {| storage_Start := λ _ _ _, None; firebase_Start := λ _ _, None |}.

Definition no_mongo : Drivers :=
  {| storage_Start := λ _ _ _, Some "no reachable servers";
     firebase_Start := λ _ _, None |}.

Definition fresh (version : string) (env : gmap string string) : process :=
  {| Version := version; Build := ""; environ := env; events := [] |}.

End main.

(** A store that keeps messages but cannot resolve recipients. *)
Module lab_more.
Import model core.

Definition blind_storage : Storage (gmap string Message) :=
  {| storage_SubscribeToTopic := storage_SubscribeToTopic (lab.lab_storage true []);
     storage_UnsubscribeToTopic := storage_UnsubscribeToTopic (lab.lab_storage true []);
     storage_CreateMessage := storage_CreateMessage (lab.lab_storage true []);
     storage_GetFirebaseTokensByRecipients := λ _ w,
       ((["t1"], Some "storage: query failed"), w);
     storage_GetMessage := λ _ w, ((None, Some "storage: query failed"), w);
     storage_UpdateMessage := storage_UpdateMessage (lab.lab_storage true []);
     storage_DeleteUserMessage := storage_DeleteUserMessage (lab.lab_storage true []) |}.

Definition blind_app : Application (gmap string Message) :=
  {| version := "dev"; storage := blind_storage;
     firebase := lab.lab_firebase true [] |}.

(** A draft to Bob that also names the topic at address 4. *)
Definition to_bob_and_sports : Message := lab.draft [lab.to_bob] (Some 4%positive).

(** A system message, as stored. *)
Definition stored_system_message : Message := lab.system_to_bob.

End lab_more.

(** * Properties of package model *)

Section user_sets.
Import model.

Lemma range_exists_elem (x : string) (l : list string) :
  range_exists x l = true ↔ x ∈ l.
Proof.
  induction l as [|entry rest IH]; simpl.
  - split; [discriminate | intros H; inversion H].
  - case_bool_decide as Hx.
    + subst. split; [intros _; left | reflexivity].
    + rewrite IH. split.
      * intros H. by right.
      * intros H. inversion H; subst; [contradiction | assumption].
Qed.

Lemma range_exists_absent (x : string) (l : list string) :
  range_exists x l = false ↔ x ∉ l.
Proof.
  rewrite <- range_exists_elem. destruct (range_exists x l); split; try done.
Qed.

(** The removal loop appends to [acc] the entries that differ from [x],
    in their order. *)
Lemma range_keep_filter (x : string) (l acc : list string) :
  range_keep x l acc = acc ++ filter (λ entry, entry ≠ x) l.
Proof.
  revert acc. induction l as [|entry rest IH]; intros acc; simpl.
  - by rewrite app_nil_r.
  - rewrite IH. case_bool_decide as Hx.
    + rewrite filter_cons_True by done. by rewrite <- app_assoc.
    + rewrite filter_cons_False; [done | ]. intros Hne. by apply Hne.
Qed.

Lemma range_keep_absent (x : string) (l : list string) :
  x ∉ l → range_keep x l [] = l.
Proof.
  intros Hx. rewrite range_keep_filter. simpl.
  induction l as [|entry rest IH]; [done | ].
  apply not_elem_of_cons in Hx as [Hne Hrest].
  rewrite filter_cons_True by (intros ->; by apply Hne).
  f_equal. by apply IH.
Qed.

Lemma NoDup_snoc (l : list string) (x : string) :
  NoDup l → x ∉ l → NoDup (l ++ [x]).
Proof.
  intros Hl Hx. apply NoDup_app. split; [done | ]. split.
  - intros y Hy Hin. apply list_elem_of_singleton in Hin. by subst.
  - apply NoDup_singleton.
Qed.

Lemma AddToken_present (t : User) (token : string) :
  token ∈ elems (User_Tokens t) → AddToken t token = t.
Proof.
  intros Hin. unfold AddToken. destruct t as [i [tokens|] u topics c d]; simpl in *.
  - apply range_exists_elem in Hin. by rewrite Hin.
  - inversion Hin.
Qed.

Lemma AddTopic_present (t : User) (topic : string) :
  topic ∈ elems (User_Topics t) → AddTopic t topic = t.
Proof.
  intros Hin. unfold AddTopic. destruct t as [i tokens u [topics|] c d]; simpl in *.
  - apply range_exists_elem in Hin. by rewrite Hin.
  - inversion Hin.
Qed.

Lemma AddToken_elem (t : User) (token : string) :
  token ∈ elems (User_Tokens (AddToken t token)).
Proof.
  unfold AddToken. destruct t as [i [tokens|] u topics c d]; simpl.
  - destruct (range_exists token tokens) eqn:E; simpl.
    + by apply range_exists_elem.
    + apply elem_of_app. right. by apply list_elem_of_singleton.
  - by apply list_elem_of_singleton.
Qed.

Lemma AddTopic_elem (t : User) (topic : string) :
  topic ∈ elems (User_Topics (AddTopic t topic)).
Proof.
  unfold AddTopic. destruct t as [i tokens u [topics|] c d]; simpl.
  - destruct (range_exists topic topics) eqn:E; simpl.
    + by apply range_exists_elem.
    + apply elem_of_app. right. by apply list_elem_of_singleton.
  - by apply list_elem_of_singleton.
Qed.

Lemma AddToken_NoDup (t : User) (token : string) :
  NoDup (elems (User_Tokens t)) → NoDup (elems (User_Tokens (AddToken t token))).
Proof.
  intros Hnd. unfold AddToken. destruct t as [i [tokens|] u topics c d]; simpl in *.
  - destruct (range_exists token tokens) eqn:E; simpl; [done | ].
    apply NoDup_snoc; [done | by apply range_exists_absent].
  - apply NoDup_singleton.
Qed.

Lemma AddTopic_NoDup (t : User) (topic : string) :
  NoDup (elems (User_Topics t)) → NoDup (elems (User_Topics (AddTopic t topic))).
Proof.
  intros Hnd. unfold AddTopic. destruct t as [i tokens u [topics|] c d]; simpl in *.
  - destruct (range_exists topic topics) eqn:E; simpl; [done | ].
    apply NoDup_snoc; [done | by apply range_exists_absent].
  - apply NoDup_singleton.
Qed.

Lemma AddToken_Topics (t : User) (token : string) :
  User_Topics (AddToken t token) = User_Topics t.
Proof.
  unfold AddToken. destruct t as [i [tokens|] u topics c d]; simpl;
    [destruct (range_exists token tokens) | ]; done.
Qed.

Lemma AddTopic_Tokens (t : User) (topic : string) :
  User_Tokens (AddTopic t topic) = User_Tokens t.
Proof.
  unfold AddTopic. destruct t as [i tokens u [topics|] c d]; simpl;
    [destruct (range_exists topic topics) | ]; done.
Qed.
End user_sets.

Section user_set_claims.
Import model.

(** C7. [AddToken] and [AddTopic] keep the lists free of duplicates and
    are idempotent: on a user whose [Tokens] and [Topics] have no
    duplicates, adding an element leaves the list duplicate-free; adding
    an element that is already there leaves the user as it was; adding
    the same element again changes nothing; and registering the same
    token and topic a second time leaves both lists, hence their sizes,
    as the first registration left them. *)
Theorem AddToken_AddTopic_duplicate_free_idempotent
    (t : User) (token topic : string) :
  NoDup (elems (User_Tokens t)) →
  NoDup (elems (User_Topics t)) →
  NoDup (elems (User_Tokens (AddToken t token))) ∧
  NoDup (elems (User_Topics (AddTopic t topic))) ∧
  (token ∈ elems (User_Tokens t) → AddToken t token = t) ∧
  (topic ∈ elems (User_Topics t) → AddTopic t topic = t) ∧
  AddToken (AddToken t token) token = AddToken t token ∧
  AddTopic (AddTopic t topic) topic = AddTopic t topic ∧
  let once := AddTopic (AddToken t token) topic in
  let twice := AddTopic (AddToken once token) topic in
  twice = once ∧
  length (elems (User_Tokens twice)) = length (elems (User_Tokens once)) ∧
  length (elems (User_Topics twice)) = length (elems (User_Topics once)).
Proof.
  intros Htokens Htopics.
  assert (Hagain : AddTopic (AddToken (AddTopic (AddToken t token) topic) token) topic
                   = AddTopic (AddToken t token) topic).
  { rewrite (AddToken_present (AddTopic _ _)).
    - apply AddTopic_present, AddTopic_elem.
    - rewrite AddTopic_Tokens. apply AddToken_elem. }
  repeat split.
  - by apply AddToken_NoDup.
  - by apply AddTopic_NoDup.
  - apply AddToken_present.
  - apply AddTopic_present.
  - apply AddToken_present, AddToken_elem.
  - apply AddTopic_present, AddTopic_elem.
  - exact Hagain.
  - cbv zeta. by rewrite Hagain.
  - cbv zeta. by rewrite Hagain.
Qed.

Lemma AddToken_AddTopic_duplicate_free_idempotent_witness :
  NoDup (elems (User_Tokens lab.carol)) ∧
  NoDup (elems (User_Topics lab.carol)) ∧
  NoDup (elems (User_Tokens (AddToken lab.carol "T2"))) ∧
  ("T1" ∈@{list string} elems (User_Tokens lab.carol) → AddToken lab.carol "T1" = lab.carol).
Proof.
  assert (H1 : NoDup (elems (User_Tokens lab.carol))) by apply NoDup_singleton.
  assert (H2 : NoDup (elems (User_Topics lab.carol))) by apply NoDup_singleton.
  split; [exact H1 | ]. split; [exact H2 | ]. split.
  - exact (proj1 (AddToken_AddTopic_duplicate_free_idempotent
                    lab.carol "T2" "sports" H1 H2)).
  - exact (proj1 (proj2 (proj2 (AddToken_AddTopic_duplicate_free_idempotent
                    lab.carol "T1" "sports" H1 H2)))).
Defined.

(** C8. Removing a token that is not in [Tokens], or a topic that is not
    in [Topics], leaves the user, and so the list, as it was.  The two
    methods return nothing: they cannot report an error, and the model
    of each is a total function. *)
Theorem Remove_absent_is_noop (t : User) (x : string) :
  (x ∉ elems (User_Tokens t) → RemoveToken t x = t) ∧
  (x ∉ elems (User_Topics t) → RemoveTopic t x = t).
Proof.
  split; intros Hx.
  - unfold RemoveToken. destruct t as [i [tokens|] u topics c d]; simpl in *; [ | done].
    unfold set_Tokens; simpl. by rewrite range_keep_absent.
  - unfold RemoveTopic. destruct t as [i tokens u [topics|] c d]; simpl in *; [ | done].
    unfold set_Topics; simpl. by rewrite range_keep_absent.
Qed.

Lemma Remove_absent_is_noop_witness :
  ("T9" ∉@{list string} elems (User_Tokens lab.carol)) ∧
  RemoveToken lab.carol "T9" = lab.carol ∧
  RemoveTopic lab.carol "T9" = lab.carol.
Proof.
  assert (H1 : "T9" ∉@{list string} elems (User_Tokens lab.carol)).
  { simpl. intros H. apply list_elem_of_singleton in H. discriminate H. }
  assert (H2 : "T9" ∉@{list string} elems (User_Topics lab.carol)).
  { simpl. intros H. apply list_elem_of_singleton in H. discriminate H. }
  split; [exact H1 | ]. split.
  - exact (proj1 (Remove_absent_is_noop lab.carol "T9") H1).
  - exact (proj2 (Remove_absent_is_noop lab.carol "T9") H2).
Defined.
End user_set_claims.

(** * The access policy: [HasUser] *)
Section access_policy.
Import model notions.

Lemma ptr_eqb_eq (p q : strptr) : ptr_eqb p q = true ↔ p = q.
Proof. unfold ptr_eqb. by rewrite bool_decide_eq_true. Qed.

Lemma ptr_eqb_load (mem : gmap loc string) (p q : strptr) :
  ptr_eqb p q = true → load mem p = load mem q.
Proof. intros H. apply ptr_eqb_eq in H. by subst. Qed.

Lemma range_recipients_elem (rs : list Recipient) (email : strptr) :
  range_recipients rs email = true ↔
  ∃ r, r ∈ rs ∧ Recipient_UserID r = email.
Proof.
  induction rs as [|recipient rest IH]; simpl.
  - split; [discriminate | ]. intros (r & Hr & _). inversion Hr.
  - destruct (ptr_eqb (Recipient_UserID recipient) email) eqn:E.
    + split; [ | done]. intros _. exists recipient. split; [left | ].
      by apply ptr_eqb_eq.
    + rewrite IH. split.
      * intros (r & Hr & He). exists r. split; [by right | done].
      * intros (r & Hr & He). apply elem_of_cons in Hr as [-> | Hr].
        -- apply ptr_eqb_eq in He. congruence.
        -- by exists r.
Qed.

(** What the code decides: with a sender on the message, [HasUser]
    answers [true] exactly when a recipient's [UserID] pointer or the
    sender user's [Email] pointer is the identity's [Email] pointer. *)
Lemma HasUser_compares_pointers (m : Message) (sender : Sender)
    (u : ShibbolethUser) :
  Message_Sender m = Some sender →
  ∃ b, HasUser m (Some u) = Returned b ∧
    (b = true ↔
      (∃ r, r ∈ Recipients m ∧ Recipient_UserID r = Email u) ∨
      (∃ su, Sender_User sender = Some su ∧ Email u = Email su)).
Proof.
  intros Hs. unfold HasUser. rewrite Hs.
  destruct (range_recipients (Recipients m) (Email u)) eqn:Er.
  - exists true. split; [done | ]. split; [ | done]. intros _. left.
    by apply range_recipients_elem.
  - assert (Hno : ¬ ∃ r, r ∈ Recipients m ∧ Recipient_UserID r = Email u).
    { rewrite <- range_recipients_elem. by rewrite Er. }
    destruct (Sender_User sender) as [su|] eqn:Esu.
    + destruct (ptr_eqb (Email u) (Email su)) eqn:Ee.
      * exists true. split; [done | ]. split; [ | done]. intros _. right.
        exists su. split; [done | by apply ptr_eqb_eq].
      * exists false. split; [done | ]. split; [done | ].
        intros [Hr | (su' & Hsu & He)]; [by destruct Hno | ].
        inversion Hsu; subst su'. apply ptr_eqb_eq in He. congruence.
    + exists false. split; [done | ]. split; [done | ].
      intros [Hr | (su' & Hsu & _)]; [by destruct Hno | discriminate].
Qed.

(** C3, on a concrete input.  Bob is a recipient of the stored message:
    the recipient entry's user id and Bob's e-mail address are the same
    string, held at two addresses, as they are when the message is
    decoded from the store and the identity from the request.  Bob has
    standing, and [HasUser] answers [false]. *)
Theorem HasUser_denies_recipient_at_other_address :
  load lab.mem (Recipient_UserID lab.to_bob) = Some "bob@illinois.edu" ∧
  load lab.mem (Email lab.bob) = Some "bob@illinois.edu" ∧
  has_standing lab.mem lab.system_to_bob (Some lab.bob) ∧
  HasUser lab.system_to_bob (Some lab.bob) = Returned false.
Proof.
  split; [reflexivity | ]. split; [reflexivity | ]. split; [ | reflexivity].
  exists lab.bob, "bob@illinois.edu". split; [reflexivity | ].
  split; [reflexivity | ]. right. exists lab.to_bob.
  split; [ | reflexivity]. simpl. left.
Qed.

(** C9. [HasUser] returns whenever the message has a sender; on a
    message without one, for an identity whose [Email] pointer is the
    [UserID] pointer of no recipient, it reads [m.Sender.User] through
    the nil [Sender] and panics rather than answer [false]. *)
Theorem HasUser_nil_Sender_panics (m : Message) :
  (Message_Sender m ≠ None → ∀ user, ∃ b, HasUser m user = Returned b) ∧
  (Message_Sender m = None →
   ∀ u, (∀ r, r ∈ Recipients m → Recipient_UserID r ≠ Email u) →
        HasUser m (Some u) = Panicked).
Proof.
  split.
  - intros Hs [u|]; [ | by exists false].
    destruct (Message_Sender m) as [sender|] eqn:E; [ | done].
    destruct (HasUser_compares_pointers m sender u E) as (b & Hb & _).
    by exists b.
  - intros Hs u Hno. unfold HasUser.
    destruct (range_recipients (Recipients m) (Email u)) eqn:Er.
    + apply range_recipients_elem in Er as (r & Hr & He).
      by destruct (Hno r Hr).
    + by rewrite Hs.
Qed.

Lemma HasUser_nil_Sender_panics_witness :
  Message_Sender lab.unsigned_to_bob = None ∧
  (∀ r, r ∈ Recipients lab.unsigned_to_bob →
        Recipient_UserID r ≠ Email lab.alice) ∧
  HasUser lab.unsigned_to_bob (Some lab.alice) = Panicked ∧
  ∃ b, HasUser lab.alice_to_bob (Some lab.alice) = Returned b.
Proof.
  assert (Hno : ∀ r, r ∈ Recipients lab.unsigned_to_bob →
                     Recipient_UserID r ≠ Email lab.alice).
  { intros r Hr. simpl in Hr. apply list_elem_of_singleton in Hr. by subst r. }
  split; [reflexivity | ]. split; [exact Hno | ]. split.
  - exact (proj2 (HasUser_nil_Sender_panics lab.unsigned_to_bob)
             eq_refl lab.alice Hno).
  - apply (proj1 (HasUser_nil_Sender_panics lab.alice_to_bob)). discriminate.
Defined.
End access_policy.

(** * The subscription synchronizer *)
Section synchronizer.
Import model core notions.
Context {W : Type} (app : Application W).

(** C2, as the code has it.  With no identity and an empty token,
    [subscribeToTopic] and [unsubscribeToTopic] return a nil error, and
    call neither the store nor the gateway: the machine is left as it
    was. *)
Theorem subscribe_without_identity_or_token_returns_nil
    (topic : string) (s : machine W) :
  subscribeToTopic app "" None topic s = (Returned None, s) ∧
  unsubscribeToTopic app "" None topic s = (Returned None, s).
Proof. split; reflexivity. Qed.

(** C5. With an identity, the store write comes first.  When it fails,
    its error is returned and the gateway is not called.  When it
    succeeds, the gateway is called next and its result, error or nil,
    is what the caller gets; the state is the one the store write left,
    moved on by the gateway call alone: no further store call undoes the
    write.  The same holds for [unsubscribeToTopic]. *)
Theorem store_write_precedes_gateway_call
    (token topic : string) (u : ShibbolethUser) (s : machine W) :
  (∀ e1 w1, storage_SubscribeToTopic (storage app) token (Email u) topic (world s)
            = (e1, w1) →
     (∀ e, e1 = Some e →
        subscribeToTopic app token (Some u) topic s =
          (Returned (Some e),
           {| memory := memory s; world := w1;
              calls := calls s ++ [StorageSubscribeToTopic token (Email u) topic] |})) ∧
     (e1 = None →
        ∀ e2 w2, firebase_SubscribeToTopic (firebase app) token topic w1 = (e2, w2) →
        subscribeToTopic app token (Some u) topic s =
          (Returned e2,
           {| memory := memory s; world := w2;
              calls := calls s ++ [StorageSubscribeToTopic token (Email u) topic;
                                   FirebaseSubscribeToTopic token topic] |}))) ∧
  (∀ e1 w1, storage_UnsubscribeToTopic (storage app) token (Email u) topic (world s)
            = (e1, w1) →
     (∀ e, e1 = Some e →
        unsubscribeToTopic app token (Some u) topic s =
          (Returned (Some e),
           {| memory := memory s; world := w1;
              calls := calls s ++ [StorageUnsubscribeToTopic token (Email u) topic] |})) ∧
     (e1 = None →
        ∀ e2 w2, firebase_UnsubscribeToTopic (firebase app) token topic w1 = (e2, w2) →
        unsubscribeToTopic app token (Some u) topic s =
          (Returned e2,
           {| memory := memory s; world := w2;
              calls := calls s ++ [StorageUnsubscribeToTopic token (Email u) topic;
                                   FirebaseUnsubscribeToTopic token topic] |}))).
Proof.
  split; intros e1 w1 Hstore; split.
  - intros e ->. unfold subscribeToTopic, bind, call, ret.
    rewrite Hstore. reflexivity.
  - intros -> e2 w2 Hgateway. unfold subscribeToTopic, bind, call.
    rewrite Hstore. simpl. rewrite Hgateway. by rewrite <- app_assoc.
  - intros e ->. unfold unsubscribeToTopic, bind, call, ret.
    rewrite Hstore. reflexivity.
  - intros -> e2 w2 Hgateway. unfold unsubscribeToTopic, bind, call.
    rewrite Hstore. simpl. rewrite Hgateway. by rewrite <- app_assoc.
Qed.
End synchronizer.

Section synchronizer_runs.
Import model core notions.

(** C2, as stated, fails: with the store writable and the gateway up,
    neither operation returns an error for a nil identity and an empty
    token. *)
Lemma subscribe_without_identity_or_token_does_not_fail :
  ¬ failed (subscribeToTopic (lab.lab_app true [] true []) "" None "sports"
              (lab.boot ∅)).1 ∧
  ¬ failed (unsubscribeToTopic (lab.lab_app true [] true []) "" None "sports"
              (lab.boot ∅)).1.
Proof. split; intros [e He]; discriminate He. Qed.

(** A run of C5: the store accepts the subscription, the gateway is
    down; the caller gets the gateway's error, and the record shows the
    store write followed by the gateway call and nothing else.  With the
    store down, the gateway is never called. *)
Lemma store_write_precedes_gateway_call_witness :
  subscribeToTopic (lab.lab_app true [] false []) "T1" (Some lab.alice) "sports"
    (lab.boot ∅) =
    (Returned lab.rejected,
     {| memory := lab.mem; world := ∅;
        calls := [StorageSubscribeToTopic "T1" (Some 3%positive) "sports";
                  FirebaseSubscribeToTopic "T1" "sports"] |}) ∧
  unsubscribeToTopic (lab.lab_app false [] true []) "T1" (Some lab.alice) "sports"
    (lab.boot ∅) =
    (Returned lab.unavailable,
     {| memory := lab.mem; world := ∅;
        calls := [StorageUnsubscribeToTopic "T1" (Some 3%positive) "sports"] |}).
Proof.
  split.
  - exact (proj2 (proj1 (store_write_precedes_gateway_call
               (lab.lab_app true [] false []) "T1" "sports" lab.alice (lab.boot ∅))
             None ∅ eq_refl) eq_refl lab.rejected ∅ eq_refl).
  - exact (proj1 (proj2 (store_write_precedes_gateway_call
               (lab.lab_app false [] true []) "T1" "sports" lab.alice (lab.boot ∅))
             lab.unavailable ∅ eq_refl) "storage: unavailable" eq_refl).
Defined.
End synchronizer_runs.

(** * The message fan-out engine *)
Section fan_out.
Import model core notions.
Context {W : Type} (app : Application W).

Lemma sent_tokens_app (cs ds : list Call) :
  sent_tokens (cs ++ ds) = sent_tokens cs ++ sent_tokens ds.
Proof.
  induction cs as [|c cs IH]; [done | ].
  destruct c; simpl; by rewrite ?IH.
Qed.

(** One turn of the loop: the send is issued whatever its result, the
    turn returns, and the store is not called. *)
Lemma send_to_token_returns (message : Message) (err : error) (token : string)
    (s : machine W) :
  ∃ s', send_to_token app message err token s = (Returned tt, s') ∧
        memory s' = memory s ∧
        sent_tokens (calls s') = sent_tokens (calls s) ++ [token] ∧
        filter is_storage_call (calls s') = filter is_storage_call (calls s).
Proof.
  unfold send_to_token, bind, call.
  destruct (firebase_SendNotificationToToken _ _ _ _ _ _) as [[e|] w] eqn:E.
  - eexists. split; [reflexivity | ]. simpl.
    rewrite !sent_tokens_app, !filter_app. simpl. by rewrite !app_nil_r.
  - eexists. split; [reflexivity | ]. simpl.
    rewrite !sent_tokens_app, !filter_app. simpl. by rewrite !app_nil_r.
Qed.

(** The whole loop: one send per token, in the order of the tokens, for
    every behaviour of the gateway. *)
Lemma for_range_sends_to_every_token (message : Message) (err : error)
    (tokens : list string) (s : machine W) :
  ∃ s', for_range tokens (send_to_token app message err) s = (Returned tt, s') ∧
        memory s' = memory s ∧
        sent_tokens (calls s') = sent_tokens (calls s) ++ tokens ∧
        filter is_storage_call (calls s') = filter is_storage_call (calls s).
Proof.
  revert s. induction tokens as [|token rest IH]; intros s; simpl.
  - exists s. by rewrite app_nil_r.
  - unfold bind.
    destruct (send_to_token_returns message err token s) as (s1 & -> & Hm1 & Ht1 & Hf1).
    destruct (IH s1) as (s2 & -> & Hm2 & Ht2 & Hf2).
    exists s2. split; [done | ]. split; [congruence | ]. split; [ | congruence].
    rewrite Ht2, Ht1. by rewrite <- app_assoc.
Qed.

(** C6. A draft without id and with recipients, once persisted and its
    recipients resolved to [tokens]: whatever the gateway answers to
    each send, [createMessage] returns the persisted message and a nil
    error, one send has been issued for every token, in order, and the
    store has been called exactly twice (persist, resolve). *)
Theorem createMessage_fan_out_is_best_effort
    (user : option ShibbolethUser) (message : Message) (s : machine W)
    (persisted : option Message) (w1 w2 : W) (tokens : list string) :
  Message_ID message = None →
  Recipients message ≠ [] →
  storage_CreateMessage (storage app)
    (set_Sender message (Some (stamp_sender user))) (world s)
    = ((persisted, None), w1) →
  storage_GetFirebaseTokensByRecipients (storage app) (Recipients message) w1
    = ((tokens, None), w2) →
  ∃ s', createMessage app user message s = (Returned (persisted, None), s') ∧
        sent_tokens (calls s') = sent_tokens (calls s) ++ tokens ∧
        filter is_storage_call (calls s') =
          filter is_storage_call (calls s) ++
            [StorageCreateMessage (set_Sender message (Some (stamp_sender user)));
             StorageGetFirebaseTokensByRecipients (Recipients message)].
Proof.
  intros Hid Hrs Hcreate Hresolve.
  unfold createMessage. rewrite Hid. unfold bind at 1. unfold call at 1.
  rewrite Hcreate. simpl.
  rewrite bool_decide_eq_true_2 by (destruct (Recipients message); [done | simpl; lia]).
  unfold bind at 1. unfold call at 1. simpl. rewrite Hresolve.
  set (s2 := {| memory := memory s; world := w2; calls := _ |}).
  assert (Hloop : ∃ s',
    (if bool_decide (0 < length tokens)
     then for_range tokens
            (send_to_token app (set_Sender message (Some (stamp_sender user))) None)
     else ret tt) s2 = (Returned tt, s') ∧
    sent_tokens (calls s') = sent_tokens (calls s2) ++ tokens ∧
    filter is_storage_call (calls s') = filter is_storage_call (calls s2)).
  { case_bool_decide as Hlen.
    - destruct (for_range_sends_to_every_token
                  (set_Sender message (Some (stamp_sender user))) None tokens s2)
        as (s' & Hrun & _ & Ht & Hf).
      by exists s'.
    - exists s2. destruct tokens; [by rewrite app_nil_r | simpl in Hlen; lia]. }
  destruct Hloop as (s' & Hrun & Ht & Hf).
  exists s'. unfold bind. rewrite Hrun. split; [reflexivity | ].
  rewrite Ht, Hf. unfold s2. simpl.
  rewrite !sent_tokens_app, !filter_app. simpl.
  by rewrite !app_nil_r, <- app_assoc.
Qed.

(** Whatever the store and the gateway are: when the insert fails and
    the draft has a topic and no recipients, the broadcast is issued, and
    what [createMessage] returns is decided by the broadcast alone. *)
Lemma createMessage_broadcasts_after_persistence_failure
    (user : option ShibbolethUser) (message : Message) (s : machine W)
    (persisted : option Message) (e : string) (w1 : W) (topic : string) :
  Message_ID message = None →
  Recipients message = [] →
  load (memory s) (Topic message) = Some topic →
  storage_CreateMessage (storage app)
    (set_Sender message (Some (stamp_sender user))) (world s)
    = ((persisted, Some e), w1) →
  ∀ e2 w2,
    firebase_SendNotificationToTopic (firebase app) topic (Subject message)
      (Body message) w1 = (e2, w2) →
    createMessage app user message s =
      (Returned (match e2 with Some _ => None | None => persisted end, e2),
       {| memory := memory s; world := w2;
          calls := calls s ++
            [StorageCreateMessage (set_Sender message (Some (stamp_sender user)));
             FirebaseSendNotificationToTopic topic (Subject message) (Body message)] |}).
Proof.
  intros Hid Hrs Hload Hcreate e2 w2 Hsend.
  unfold createMessage. rewrite Hid. unfold bind at 1. unfold call at 1.
  rewrite Hcreate. simpl. rewrite Hrs. simpl.
  destruct (Topic message) as [l|] eqn:Ht; [ | discriminate Hload].
  unfold bind, deref, call. cbn [memory world calls]. rewrite Hload.
  cbn [memory world calls]. rewrite Hsend.
  rewrite <- app_assoc. by destruct e2.
Qed.

(** C10. [deleteUserMessage] panics on a nil identity and on an identity
    whose [Email] is nil, before any call is issued; with both present
    it passes the e-mail address and the message id to the store and
    returns the store's answer. *)
Theorem deleteUserMessage_needs_identity_and_email
    (messageID : string) (s : machine W) :
  deleteUserMessage app None messageID s = (Panicked, s) ∧
  (∀ u, Email u = None → deleteUserMessage app (Some u) messageID s = (Panicked, s)) ∧
  (∀ u email, load (memory s) (Email u) = Some email →
     deleteUserMessage app (Some u) messageID s =
       let '(err, w) := storage_DeleteUserMessage (storage app) email messageID (world s) in
       (Returned err,
        {| memory := memory s; world := w;
           calls := calls s ++ [StorageDeleteUserMessage email messageID] |})).
Proof.
  split; [reflexivity | ]. split.
  - intros u Hu. unfold deleteUserMessage, bind, through, ret, deref.
    by rewrite Hu.
  - intros u email Hload. unfold deleteUserMessage, bind, through, ret, deref, call.
    rewrite Hload. reflexivity.
Qed.
End fan_out.

(** * Updating a message *)
Section update.
Import model core notions.
Context {W : Type} (app : Application W).

(** Without an id, or when the store has no record for the id or fails
    to read it, the answer is the "missing id or record" error, whoever
    asks; the store's [UpdateMessage] is not called. *)
Lemma updateMessage_missing (user : option ShibbolethUser) (message : Message)
    (s : machine W) :
  (Message_ID message = None →
   updateMessage app user message s = (Returned (None, Some err_missing), s)) ∧
  (∀ id found err w1,
     load (memory s) (Message_ID message) = Some id →
     storage_GetMessage (storage app) id (world s) = ((found, err), w1) →
     found = None ∨ err ≠ None →
     updateMessage app user message s =
       (Returned (None, Some err_missing),
        {| memory := memory s; world := w1;
           calls := calls s ++ [StorageGetMessage id] |})).
Proof.
  split.
  - intros Hid. unfold updateMessage. by rewrite Hid.
  - intros id found err w1 Hload Hget Hnone. unfold updateMessage.
    destruct (Message_ID message) as [l|] eqn:Hid; [ | discriminate Hload].
    unfold bind, deref, call. rewrite Hload, Hget.
    destruct err as [e|]; [reflexivity | ].
    destruct found; [ | reflexivity]. by destruct Hnone.
Qed.

(** With an identity and a stored record that has a sender: unless the
    sender is a user whose [Email] pointer is the identity's [Email]
    pointer, the answer is the "only creator" error and the store's
    [UpdateMessage] is not called; when the pointers are the same, the
    two e-mail addresses are the same string, and the call goes to the
    store. *)
Lemma updateMessage_with_identity (u : ShibbolethUser) (message : Message)
    (s : machine W) (id : string) (persisted : Message) (sender : Sender) (w1 : W) :
  load (memory s) (Message_ID message) = Some id →
  storage_GetMessage (storage app) id (world s) = ((Some persisted, None), w1) →
  Message_Sender persisted = Some sender →
  let s1 := {| memory := memory s; world := w1;
               calls := calls s ++ [StorageGetMessage id] |} in
  ((∀ su, Sender_User sender = Some su → Email su ≠ Email u) →
   updateMessage app (Some u) message s = (Returned (None, Some err_only_creator), s1)) ∧
  (∀ su, Sender_User sender = Some su → Email su = Email u →
     load (memory s) (Email su) = load (memory s) (Email u) ∧
     updateMessage app (Some u) message s =
       call (StorageUpdateMessage message)
         (storage_UpdateMessage (storage app) message) s1).
Proof.
  intros Hload Hget Hsender s1.
  assert (Hrun : updateMessage app (Some u) message s =
    match Sender_User sender with
    | Some su =>
        if ptr_eqb (Email su) (Email u)
        then call (StorageUpdateMessage message)
               (storage_UpdateMessage (storage app) message) s1
        else (Returned (None, Some err_only_creator), s1)
    | None => (Returned (None, Some err_only_creator), s1)
    end).
  { unfold updateMessage.
    destruct (Message_ID message) as [l|] eqn:Hid; [ | discriminate Hload].
    unfold bind, deref, call at 1. rewrite Hload, Hget. simpl.
    rewrite Hsender. simpl. destruct (Sender_User sender) as [su|]; [ | done].
    simpl. by destruct (ptr_eqb (Email su) (Email u)). }
  split.
  - intros Hother. rewrite Hrun. destruct (Sender_User sender) as [su|]; [ | done].
    destruct (ptr_eqb (Email su) (Email u)) eqn:E; [ | done].
    apply ptr_eqb_eq in E. by destruct (Hother su).
  - intros su Hsu Hsame. split; [by rewrite Hsame | ].
    rewrite Hrun, Hsu. apply ptr_eqb_eq in Hsame. by rewrite Hsame.
Qed.
End update.

(** * Runs on concrete inputs *)
Section runs.
Import model core notions.

(** C1, on concrete inputs: the store refuses the insert.  For a topic
    message the broadcast is issued all the same, and as the gateway
    accepts it, [createMessage] returns a nil message and a nil error:
    the persistence error is lost.  For a message with a recipient, the
    sends to the resolved tokens are issued before the persistence
    error is returned. *)
Theorem createMessage_delivers_after_persistence_failure :
  let topical := createMessage (lab.lab_app false [] true []) None
                   (lab.draft [] (Some 4%positive)) (lab.boot ∅) in
  let addressed := createMessage (lab.lab_app false ["t1"; "t2"] true []) None
                     (lab.draft [lab.to_bob] None) (lab.boot ∅) in
  topical.1 = Returned (None, None) ∧
  filter is_delivery (calls topical.2) =
    [FirebaseSendNotificationToTopic "sports" "Game day" "Kick-off at noon"] ∧
  addressed.1 = Returned (None, lab.unavailable) ∧
  filter is_delivery (calls addressed.2) =
    [FirebaseSendNotificationToToken "t1" "Game day" "Kick-off at noon" ∅;
     FirebaseSendNotificationToToken "t2" "Game day" "Kick-off at noon" ∅].
Proof. vm_compute. repeat split; reflexivity. Qed.

(** C4, on concrete inputs: the store holds the message Alice sent.  A
    call without identity panics on [user.Email] after the record is
    read, where an authorization error is due; so does a call by Bob on
    a stored record that carries no sender.  Neither reaches the
    store's [UpdateMessage].  Alice herself, whose e-mail address is the
    sender's, string for string, but held at another address, gets the
    "only creator" error. *)
Theorem updateMessage_panics_on_nil_identity_or_sender :
  let anonymous := updateMessage (lab.lab_app true [] true []) None
                     lab.alice_to_bob (lab.boot (<["m1" := lab.alice_to_bob]> ∅)) in
  let unsigned := updateMessage (lab.lab_app true [] true []) (Some lab.bob)
                    lab.unsigned_to_bob (lab.boot (<["m1" := lab.unsigned_to_bob]> ∅)) in
  let by_sender := updateMessage (lab.lab_app true [] true []) (Some lab.alice)
                     lab.alice_to_bob (lab.boot (<["m1" := lab.alice_to_bob]> ∅)) in
  anonymous.1 = Panicked ∧ calls anonymous.2 = [StorageGetMessage "m1"] ∧
  unsigned.1 = Panicked ∧ calls unsigned.2 = [StorageGetMessage "m1"] ∧
  load lab.mem (Email lab.alice) = load lab.mem (Email lab.alice_as_stored) ∧
  by_sender.1 = Returned (None, Some err_only_creator) ∧
  calls by_sender.2 = [StorageGetMessage "m1"].
Proof. vm_compute. repeat split; reflexivity. Qed.

(** A run of C6: two tokens, the gateway rejects the first send; both
    sends are issued and the persisted message is returned. *)
Lemma createMessage_fan_out_is_best_effort_witness :
  ∃ s', createMessage (lab.lab_app true ["t1"; "t2"] true ["t1"]) None
          (lab.draft [lab.to_bob] None) (lab.boot ∅)
        = (Returned (Some lab.system_to_bob, None), s') ∧
        sent_tokens (calls s') = ["t1"; "t2"] ∧
        filter is_storage_call (calls s') =
          [StorageCreateMessage
             (set_Sender (lab.draft [lab.to_bob] None)
                (Some (stamp_sender None)));
           StorageGetFirebaseTokensByRecipients [lab.to_bob]].
Proof.
  apply (createMessage_fan_out_is_best_effort
           (lab.lab_app true ["t1"; "t2"] true ["t1"]) None
           (lab.draft [lab.to_bob] None) (lab.boot ∅)
           (Some lab.system_to_bob)
           (<["m1" := lab.system_to_bob]> ∅) (<["m1" := lab.system_to_bob]> ∅)
           ["t1"; "t2"]).
  - reflexivity.
  - discriminate.
  - reflexivity.
  - reflexivity.
Defined.

(** A run of C10: Bob removes himself from message ["m1"]; an identity
    without e-mail address panics. *)
Lemma deleteUserMessage_needs_identity_and_email_witness :
  load lab.mem (Email lab.bob) = Some "bob@illinois.edu" ∧
  deleteUserMessage (lab.lab_app true [] true []) (Some lab.bob) "m1" (lab.boot ∅) =
    (Returned None,
     {| memory := lab.mem; world := ∅;
        calls := [StorageDeleteUserMessage "bob@illinois.edu" "m1"] |}) ∧
  deleteUserMessage (lab.lab_app true [] true []) (Some lab.nobody) "m1" (lab.boot ∅) =
    (Panicked, lab.boot ∅).
Proof.
  split; [reflexivity | ]. split.
  - exact (proj2 (proj2 (deleteUserMessage_needs_identity_and_email
             (lab.lab_app true [] true []) "m1" (lab.boot ∅)))
             lab.bob "bob@illinois.edu" eq_refl).
  - exact (proj1 (proj2 (deleteUserMessage_needs_identity_and_email
             (lab.lab_app true [] true []) "m1" (lab.boot ∅)))
             lab.nobody eq_refl).
Defined.
End runs.

(** * More on the token and topic lists of a user *)
Section user_lists.
Import model.

Lemma filter_ne_absent (x : string) (l : list string) :
  x ∉ filter (λ entry, entry ≠ x) l.
Proof. intros H. apply list_elem_of_filter in H as [Hne _]. by apply Hne. Qed.

Lemma filter_ne_id (x : string) (l : list string) :
  x ∉ l → filter (λ entry, entry ≠ x) l = l.
Proof.
  intros Hx. pose proof (range_keep_filter x l []) as H. simpl in H.
  rewrite <- H. by apply range_keep_absent.
Qed.

Lemma filter_ne_snoc_absent (x : string) (l : list string) :
  x ∉ l → filter (λ entry, entry ≠ x) (l ++ [x]) = l.
Proof.
  intros Hx. rewrite filter_app, filter_ne_id by done.
  rewrite filter_cons_False by (intros H; by apply H).
  rewrite filter_nil. by rewrite app_nil_r.
Qed.

Lemma RemoveToken_elems (t : User) (x : string) :
  elems (User_Tokens (RemoveToken t x)) = filter (λ entry, entry ≠ x) (elems (User_Tokens t)).
Proof.
  unfold RemoveToken. destruct t as [i [tokens|] u topics c d]; simpl; [ | done].
  by rewrite range_keep_filter.
Qed.

Lemma RemoveTopic_elems (t : User) (x : string) :
  elems (User_Topics (RemoveTopic t x)) = filter (λ entry, entry ≠ x) (elems (User_Topics t)).
Proof.
  unfold RemoveTopic. destruct t as [i tokens u [topics|] c d]; simpl; [ | done].
  by rewrite range_keep_filter.
Qed.

Lemma AddToken_elems_absent (t : User) (x : string) :
  x ∉ elems (User_Tokens t) →
  elems (User_Tokens (AddToken t x)) = elems (User_Tokens t) ++ [x].
Proof.
  intros Hx. unfold AddToken. destruct t as [i [tokens|] u topics c d]; simpl in *.
  - apply range_exists_absent in Hx. by rewrite Hx.
  - done.
Qed.

Lemma AddTopic_elems_absent (t : User) (x : string) :
  x ∉ elems (User_Topics t) →
  elems (User_Topics (AddTopic t x)) = elems (User_Topics t) ++ [x].
Proof.
  intros Hx. unfold AddTopic. destruct t as [i tokens u [topics|] c d]; simpl in *.
  - apply range_exists_absent in Hx. by rewrite Hx.
  - done.
Qed.

(** [RemoveToken] and [RemoveTopic] drop every occurrence of the element
    and keep the other entries in their order; afterwards the element is
    not in the list, and removing it again changes nothing. *)
Theorem Remove_drops_every_occurrence (t : User) (x : string) :
  elems (User_Tokens (RemoveToken t x))
    = filter (λ entry, entry ≠ x) (elems (User_Tokens t)) ∧
  elems (User_Topics (RemoveTopic t x))
    = filter (λ entry, entry ≠ x) (elems (User_Topics t)) ∧
  (x ∉ elems (User_Tokens (RemoveToken t x))) ∧
  (x ∉ elems (User_Topics (RemoveTopic t x))) ∧
  RemoveToken (RemoveToken t x) x = RemoveToken t x ∧
  RemoveTopic (RemoveTopic t x) x = RemoveTopic t x.
Proof.
  split; [apply RemoveToken_elems | ]. split; [apply RemoveTopic_elems | ].
  split; [rewrite RemoveToken_elems; apply filter_ne_absent | ].
  split; [rewrite RemoveTopic_elems; apply filter_ne_absent | ].
  split.
  - unfold RemoveToken. destruct t as [i [tokens|] u topics c d]; simpl; [ | done].
    unfold set_Tokens; simpl. f_equal. f_equal. apply range_keep_absent.
    rewrite range_keep_filter. apply filter_ne_absent.
  - unfold RemoveTopic. destruct t as [i tokens u [topics|] c d]; simpl; [ | done].
    unfold set_Topics; simpl. f_equal. f_equal. apply range_keep_absent.
    rewrite range_keep_filter. apply filter_ne_absent.
Qed.

(** After [AddToken] (resp. [AddTopic]) the list holds the element and
    what it held before, nothing else; an element that was absent is put
    at the end, so the list grows by one and the earlier entries keep
    their places. *)
Theorem Add_membership_and_position (t : User) (x : string) :
  (∀ y, y ∈ elems (User_Tokens (AddToken t x)) ↔ y = x ∨ y ∈ elems (User_Tokens t)) ∧
  (∀ y, y ∈ elems (User_Topics (AddTopic t x)) ↔ y = x ∨ y ∈ elems (User_Topics t)) ∧
  (x ∉ elems (User_Tokens t) →
     elems (User_Tokens (AddToken t x)) = elems (User_Tokens t) ++ [x]) ∧
  (x ∉ elems (User_Topics t) →
     elems (User_Topics (AddTopic t x)) = elems (User_Topics t) ++ [x]).
Proof.
  split; [ | split; [ | split; [apply AddToken_elems_absent | apply AddTopic_elems_absent]]].
  - intros y. destruct (decide (x ∈ elems (User_Tokens t))) as [Hin | Hout].
    + rewrite AddToken_present by done. split; [by right | ].
      intros [-> | H]; done.
    + rewrite AddToken_elems_absent by done. rewrite elem_of_app, list_elem_of_singleton.
      split; intros [H | H]; auto.
  - intros y. destruct (decide (x ∈ elems (User_Topics t))) as [Hin | Hout].
    + rewrite AddTopic_present by done. split; [by right | ].
      intros [-> | H]; done.
    + rewrite AddTopic_elems_absent by done. rewrite elem_of_app, list_elem_of_singleton.
      split; intros [H | H]; auto.
Qed.

Lemma Add_membership_and_position_witness :
  ("T2" ∉@{list string} elems (User_Tokens lab.carol)) ∧
  elems (User_Tokens (AddToken lab.carol "T2")) = ["T1"; "T2"].
Proof.
  assert (H : "T2" ∉@{list string} elems (User_Tokens lab.carol)).
  { simpl. intros H. apply list_elem_of_singleton in H. discriminate H. }
  split; [exact H | ].
  exact (proj1 (proj2 (proj2 (Add_membership_and_position lab.carol "T2"))) H).
Defined.

(** Adding an element that was absent and removing it again gives back
    the entries of the list.  A nil list does not come back as nil: it
    is an empty, non-nil list afterwards. *)
Theorem Add_then_Remove_restores (t : User) (x : string) :
  (x ∉ elems (User_Tokens t) →
     elems (User_Tokens (RemoveToken (AddToken t x) x)) = elems (User_Tokens t)) ∧
  (x ∉ elems (User_Topics t) →
     elems (User_Topics (RemoveTopic (AddTopic t x) x)) = elems (User_Topics t)) ∧
  (User_Tokens t = None →
     User_Tokens (RemoveToken (AddToken t x) x) = Some []) ∧
  (User_Topics t = None →
     User_Topics (RemoveTopic (AddTopic t x) x) = Some []).
Proof.
  split; [ | split; [ | split]].
  - intros Hx. rewrite RemoveToken_elems, AddToken_elems_absent by done.
    by apply filter_ne_snoc_absent.
  - intros Hx. rewrite RemoveTopic_elems, AddTopic_elems_absent by done.
    by apply filter_ne_snoc_absent.
  - intros Hnil. destruct t as [i tokens u topics c d]; simpl in Hnil; subst.
    unfold AddToken, RemoveToken; simpl.
    by rewrite bool_decide_eq_false_2 by (intros H; by apply H).
  - intros Hnil. destruct t as [i tokens u topics c d]; simpl in Hnil; subst.
    unfold AddTopic, RemoveTopic; simpl.
    by rewrite bool_decide_eq_false_2 by (intros H; by apply H).
Qed.

Lemma Add_then_Remove_restores_witness :
  ("T2" ∉@{list string} elems (User_Tokens lab.carol)) ∧
  elems (User_Tokens (RemoveToken (AddToken lab.carol "T2") "T2")) = ["T1"] ∧
  User_Tokens (RemoveToken (AddToken (set_Tokens lab.carol None) "T2") "T2") = Some [].
Proof.
  assert (H : "T2" ∉@{list string} elems (User_Tokens lab.carol)).
  { simpl. intros H. apply list_elem_of_singleton in H. discriminate H. }
  split; [exact H | ]. split.
  - exact (proj1 (Add_then_Remove_restores lab.carol "T2") H).
  - exact (proj1 (proj2 (proj2 (Add_then_Remove_restores
             (set_Tokens lab.carol None) "T2"))) eq_refl).
Defined.

Lemma length_filter_ne_present (x : string) (l : list string) :
  NoDup l → x ∈ l → S (length (filter (λ entry, entry ≠ x) l)) = length l.
Proof.
  induction l as [|entry rest IH]; intros Hnd Hin; [inversion Hin | ].
  apply NoDup_cons in Hnd as [Hentry Hrest].
  destruct (decide (entry = x)) as [-> | Hne].
  - rewrite filter_cons_False by (intros H; by apply H). simpl. f_equal.
    f_equal. by apply filter_ne_id.
  - rewrite filter_cons_True by done. simpl. f_equal. apply IH; [done | ].
    apply elem_of_cons in Hin as [-> | Hin]; [by destruct Hne | done].
Qed.

(** Removal keeps a duplicate-free list duplicate-free and never makes
    it longer; from a duplicate-free list that holds the element it
    takes exactly one entry away. *)
Theorem Remove_keeps_NoDup_and_shrinks (t : User) (x : string) :
  (NoDup (elems (User_Tokens t)) → NoDup (elems (User_Tokens (RemoveToken t x)))) ∧
  (NoDup (elems (User_Topics t)) → NoDup (elems (User_Topics (RemoveTopic t x)))) ∧
  (length (elems (User_Tokens (RemoveToken t x))) ≤ length (elems (User_Tokens t)))%nat ∧
  (length (elems (User_Topics (RemoveTopic t x))) ≤ length (elems (User_Topics t)))%nat ∧
  (NoDup (elems (User_Tokens t)) → x ∈ elems (User_Tokens t) →
     S (length (elems (User_Tokens (RemoveToken t x)))) = length (elems (User_Tokens t))) ∧
  (NoDup (elems (User_Topics t)) → x ∈ elems (User_Topics t) →
     S (length (elems (User_Topics (RemoveTopic t x)))) = length (elems (User_Topics t))).
Proof.
  rewrite RemoveToken_elems, RemoveTopic_elems.
  split; [apply NoDup_filter | ]. split; [apply NoDup_filter | ].
  split; [apply length_filter | ]. split; [apply length_filter | ].
  split; apply length_filter_ne_present.
Qed.

Lemma Remove_keeps_NoDup_and_shrinks_witness :
  NoDup (elems (User_Tokens lab.carol)) ∧
  ("T1" ∈@{list string} elems (User_Tokens lab.carol)) ∧
  S (length (elems (User_Tokens (RemoveToken lab.carol "T1"))))
    = length (elems (User_Tokens lab.carol)) ∧
  NoDup (elems (User_Topics (RemoveTopic lab.carol "sports"))).
Proof.
  assert (H1 : NoDup (elems (User_Tokens lab.carol))) by apply NoDup_singleton.
  assert (H2 : "T1" ∈@{list string} elems (User_Tokens lab.carol)) by (simpl; left).
  assert (H3 : NoDup (elems (User_Topics lab.carol))) by apply NoDup_singleton.
  split; [exact H1 | ]. split; [exact H2 | ]. split.
  - exact (proj1 (proj2 (proj2 (proj2 (proj2
             (Remove_keeps_NoDup_and_shrinks lab.carol "T1"))))) H1 H2).
  - exact (proj1 (proj2 (Remove_keeps_NoDup_and_shrinks lab.carol "sports")) H3).
Defined.

End user_lists.

(** * More on [HasUser] *)
Section access_policy_more.
Import model notions.

(** On a message that has a sender, [HasUser] always returns, and it
    returns [true] exactly for a present identity whose [Email] pointer
    is the [UserID] pointer of a recipient or the [Email] pointer of the
    sender user; a nil identity gets [false]. *)
Theorem HasUser_decides_by_address (m : Message) (sender : Sender)
    (user : option ShibbolethUser) :
  Message_Sender m = Some sender →
  ∃ b, HasUser m user = Returned b ∧
    (b = true ↔
      ∃ u, user = Some u ∧
        ((∃ r, r ∈ Recipients m ∧ Recipient_UserID r = Email u) ∨
         (∃ su, Sender_User sender = Some su ∧ Email u = Email su))).
Proof.
  intros Hs. destruct user as [u|].
  - destruct (HasUser_compares_pointers m sender u Hs) as (b & Hb & Hiff).
    exists b. split; [done | ]. rewrite Hiff. split.
    + intros H. by exists u.
    + intros (u' & Hu & H). by inversion Hu; subst.
  - exists false. split; [done | ]. split; [done | ].
    intros (u & Hu & _). discriminate Hu.
Qed.

Lemma HasUser_decides_by_address_witness :
  ∃ b, HasUser lab.alice_to_bob (Some lab.alice_as_stored) = Returned b ∧
    (b = true ↔
      ∃ u, Some lab.alice_as_stored = Some u ∧
        ((∃ r, r ∈ Recipients lab.alice_to_bob ∧ Recipient_UserID r = Email u) ∨
         (∃ su, Sender_User {| Sender_Type := "user";
                               Sender_User := Some lab.alice_as_stored |} = Some su ∧
                Email u = Email su))).
Proof.
  exact (HasUser_decides_by_address lab.alice_to_bob
           {| Sender_Type := "user"; Sender_User := Some lab.alice_as_stored |}
           (Some lab.alice_as_stored) eq_refl).
Defined.

(** The recipients are looked at first: an identity whose [Email]
    pointer is the [UserID] pointer of a recipient gets [true] whatever
    the sender is, a nil [Sender] included.  Two nil pointers are equal:
    an identity without e-mail address gets [true] on every message that
    has a recipient without user id. *)
Theorem HasUser_recipient_match_comes_first (m : Message) (u : ShibbolethUser)
    (r : Recipient) :
  r ∈ Recipients m →
  Recipient_UserID r = Email u →
  HasUser m (Some u) = Returned true.
Proof.
  intros Hr He. unfold HasUser.
  assert (H : range_recipients (Recipients m) (Email u) = true).
  { apply range_recipients_elem. by exists r. }
  by rewrite H.
Qed.

Lemma HasUser_recipient_match_comes_first_witness :
  let anonymous_recipient :=
    {| Recipient_UserID := None; Recipient_Name := None;
       NotificationDisabled := false |} in
  let m := lab.draft [lab.to_bob; anonymous_recipient] None in
  Message_Sender m = None ∧ Email lab.nobody = None ∧
  HasUser m (Some lab.nobody) = Returned true.
Proof.
  split; [reflexivity | ]. split; [reflexivity | ].
  apply (HasUser_recipient_match_comes_first
           (lab.draft [lab.to_bob;
                       {| Recipient_UserID := None; Recipient_Name := None;
                          NotificationDisabled := false |}] None)
           lab.nobody
           {| Recipient_UserID := None; Recipient_Name := None;
              NotificationDisabled := false |}).
  - simpl. right. left.
  - reflexivity.
Defined.

(** [HasUser] errs on one side only: when it answers [true] for an
    identity whose e-mail address is in memory, that address is, as a
    string, the user id of a recipient or the e-mail address of the
    sender user. *)
Theorem HasUser_true_implies_standing (mem : gmap loc string) (m : Message)
    (u : ShibbolethUser) (email : string) :
  load mem (Email u) = Some email →
  HasUser m (Some u) = Returned true →
  has_standing mem m (Some u).
Proof.
  intros Hload Htrue. exists u, email. split; [done | ]. split; [done | ].
  unfold HasUser in Htrue.
  destruct (range_recipients (Recipients m) (Email u)) eqn:Er.
  - right. apply range_recipients_elem in Er as (r & Hr & He).
    exists r. split; [done | ]. by rewrite He.
  - left. destruct (Message_Sender m) as [sender|]; [ | discriminate Htrue].
    destruct (Sender_User sender) as [su|] eqn:Esu; [ | discriminate Htrue].
    destruct (ptr_eqb (Email u) (Email su)) eqn:Ee; [ | discriminate Htrue].
    exists sender, su. split; [done | ]. split; [done | ].
    by rewrite <- (ptr_eqb_load mem _ _ Ee).
Qed.

Lemma HasUser_true_implies_standing_witness :
  load lab.mem (Email lab.alice_as_stored) = Some "alice@illinois.edu" ∧
  HasUser lab.alice_to_bob (Some lab.alice_as_stored) = Returned true ∧
  has_standing lab.mem lab.alice_to_bob (Some lab.alice_as_stored).
Proof.
  split; [reflexivity | ]. split; [reflexivity | ].
  exact (HasUser_true_implies_standing lab.mem lab.alice_to_bob
           lab.alice_as_stored "alice@illinois.edu" eq_refl eq_refl).
Defined.
End access_policy_more.

(** * More on [createMessage] *)
Section create_more.
Import model core notions observe.
Context {W : Type} (app : Application W).

Lemma printed_app (cs ds : list Call) :
  printed (cs ++ ds) = printed cs ++ printed ds.
Proof.
  induction cs as [|c cs IH]; [done | ].
  destruct c; simpl; by rewrite ?IH.
Qed.

(** One turn of the loop, seen from outside: one call to the gateway,
    the send of the message to the token, and at most one line, which
    names the token and a nil error. *)
Lemma send_to_token_observed (message : Message) (token : string) (s : machine W) :
  ∃ s' lines,
    send_to_token app message None token s = (Returned tt, s') ∧
    filter is_gateway_call (calls s') =
      filter is_gateway_call (calls s) ++ [send_of message token] ∧
    printed (calls s') = printed (calls s) ++ lines ∧
    sublist lines [failed_send_line token] ∧
    filter is_storage_call (calls s') = filter is_storage_call (calls s).
Proof.
  unfold send_to_token, bind, call.
  destruct (firebase_SendNotificationToToken _ _ _ _ _ _) as [[e|] w] eqn:E.
  - eexists _, [failed_send_line token]. split; [reflexivity | ]. simpl.
    rewrite !printed_app, !filter_app. simpl. rewrite !app_nil_r.
    repeat split; try done.
  - eexists _, []. split; [reflexivity | ]. simpl.
    rewrite !printed_app, !filter_app. simpl. rewrite !app_nil_r.
    repeat split; try done. apply sublist_nil_l.
Qed.

Lemma for_range_observed (message : Message) (tokens : list string) (s : machine W) :
  ∃ s' lines,
    for_range tokens (send_to_token app message None) s = (Returned tt, s') ∧
    filter is_gateway_call (calls s') =
      filter is_gateway_call (calls s) ++ map (send_of message) tokens ∧
    printed (calls s') = printed (calls s) ++ lines ∧
    sublist lines (map failed_send_line tokens) ∧
    filter is_storage_call (calls s') = filter is_storage_call (calls s).
Proof.
  revert s. induction tokens as [|token rest IH]; intros s; simpl.
  - exists s, []. by rewrite !app_nil_r.
  - unfold bind.
    destruct (send_to_token_observed message token s)
      as (s1 & l1 & -> & Hg1 & Hp1 & Hl1 & Hs1).
    destruct (IH s1) as (s2 & l2 & -> & Hg2 & Hp2 & Hl2 & Hs2).
    exists s2, (l1 ++ l2). split; [done | ].
    rewrite Hg2, Hg1, Hp2, Hp1, Hs2, Hs1, <- !app_assoc.
    repeat split; try done.
    by apply (sublist_app l1 [failed_send_line token] l2).
Qed.

(** A draft that already has an id is refused with the "already sent"
    error naming the id; neither the store nor the gateway is called. *)
Theorem createMessage_with_id_is_refused
    (user : option ShibbolethUser) (message : Message) (s : machine W) (id : string) :
  load (memory s) (Message_ID message) = Some id →
  createMessage app user message s =
    (Returned (None, Some ("message with id (" +:+ id +:+ "): is already sent")), s).
Proof.
  intros Hload. unfold createMessage.
  destruct (Message_ID message) as [l|] eqn:Hid; [ | discriminate Hload].
  unfold bind, deref. by rewrite Hload.
Qed.

(** Every operation of the monad only adds to the record of calls. *)
Local Abbreviation extends c :=
  (∀ s, ∃ more, calls (c s).2 = calls s ++ more).

Lemma ret_extends {A} (a : A) : extends (@ret W A a).
Proof. intros s. exists []. by rewrite app_nil_r. Qed.

Lemma panic_extends {A} : extends (@panic W A).
Proof. intros s. exists []. by rewrite app_nil_r. Qed.

Lemma call_extends {A} (c : Call) (method : W → A * W) : extends (call c method).
Proof. intros s. exists [c]. unfold call. by destruct (method (world s)). Qed.

Lemma printf_extends (line : string) : extends (@printf W line).
Proof. intros s. by exists [Printf line]. Qed.

Lemma deref_extends (p : strptr) : extends (@deref W p).
Proof.
  intros s. exists []. unfold deref.
  destruct (load (memory s) p); by rewrite app_nil_r.
Qed.

Lemma through_extends {A} (p : option A) : extends (@through W A p).
Proof. destruct p; [apply ret_extends | apply panic_extends]. Qed.

Lemma bind_extends {A B} (c : Go W A) (k : A → Go W B) :
  extends c → (∀ a, extends (k a)) → extends (bind c k).
Proof.
  intros Hc Hk s. unfold bind. destruct (Hc s) as [more1 H1].
  destruct (c s) as [[a|] s1]; simpl in *.
  - destruct (Hk a s1) as [more2 H2]. exists (more1 ++ more2).
    by rewrite H2, H1, <- app_assoc.
  - by exists more1.
Qed.

Ltac bind_step :=
  match goal with
  | |- ∀ s, ∃ more, calls (bind ?c ?k s).2 = _ => apply (bind_extends c k)
  end.

Lemma for_range_extends {A} (xs : list A) (body : A → Go W unit) :
  (∀ x, extends (body x)) → extends (for_range xs body).
Proof.
  intros Hbody. induction xs as [|x rest IH]; cbn [for_range].
  - apply ret_extends.
  - bind_step; [apply Hbody | intros _; exact IH].
Qed.

Lemma send_to_token_extends (message : Message) (err : error) (token : string) :
  extends (send_to_token app message err token).
Proof.
  unfold send_to_token. bind_step; [apply call_extends | ].
  intros [e|]; [apply printf_extends | apply ret_extends].
Qed.

Lemma finish_extends (persisted : option Message) (err : error) :
  extends (@finish W persisted err).
Proof. unfold finish. destruct err; apply ret_extends. Qed.

(** The sender a caller puts on the draft is not used: [createMessage]
    replaces it, by the acting identity's [Uin], [Email] and [Phone]
    under type "user", or by type "system" without identity; what goes
    to the store first is the draft with that sender. *)
Theorem createMessage_ignores_sender_of_draft
    (user : option ShibbolethUser) (message : Message) (forged : option Sender)
    (s : machine W) :
  createMessage app user (set_Sender message forged) s = createMessage app user message s ∧
  (Message_ID message = None →
   ∃ rest, calls (createMessage app user (set_Sender message forged) s).2
           = calls s ++
             StorageCreateMessage (set_Sender message (Some (stamp_sender user))) :: rest) ∧
  stamp_sender None = {| Sender_Type := "system"; Sender_User := None |} ∧
  (∀ u, stamp_sender (Some u) =
        {| Sender_Type := "user";
           Sender_User := Some {| Uin := Uin u; Email := Email u; Phone := Phone u;
                                  Membership := None |} |}).
Proof.
  split; [reflexivity | ]. split; [ | split; [reflexivity | by intros u]].
  intros Hid.
  change (createMessage app user (set_Sender message forged) s)
    with (createMessage app user message s).
  unfold createMessage. rewrite Hid.
  set (m := set_Sender message (Some (stamp_sender user))).
  match goal with
  | |- context [bind (call (StorageCreateMessage m) ?method) ?k] =>
      assert (Hk : ∀ a, extends (k a)); [ | set (K := k) in * ]
  end.
  { intros [persisted err]. case_bool_decide.
    - bind_step; [apply call_extends | ].
      intros [tokens [e|]]; [apply ret_extends | ].
      bind_step; [ | intros _; apply finish_extends].
      case_bool_decide; [ | apply ret_extends].
      apply for_range_extends. intros token. apply send_to_token_extends.
    - destruct (Topic m); [ | apply finish_extends].
      bind_step; [apply deref_extends | intros topic].
      bind_step; [apply call_extends | intros err'; apply finish_extends]. }
  unfold bind, call.
  destruct (storage_CreateMessage (storage app) m (world s)) as [a w1].
  match goal with
  | |- context [K a ?s1] => destruct (Hk a s1) as [more Hmore]
  end.
  exists more. rewrite Hmore. simpl. by rewrite <- app_assoc.
Qed.
End create_more.

(** * The paths of [createMessage] *)
Section create_paths.
Import model core notions observe.
Context {W : Type} (app : Application W).

(** A draft with neither recipients nor topic is handed to the store and
    nothing else happens: the gateway is not called, and the result is
    the store's, a nil message taking the place of the store's when it
    reports an error. *)
Theorem createMessage_without_audience
    (user : option ShibbolethUser) (message : Message) (s : machine W)
    (persisted : option Message) (err : error) (w1 : W) :
  Message_ID message = None →
  Recipients message = [] →
  Topic message = None →
  storage_CreateMessage (storage app)
    (set_Sender message (Some (stamp_sender user))) (world s)
    = ((persisted, err), w1) →
  createMessage app user message s =
    (Returned (match err with Some _ => None | None => persisted end, err),
     {| memory := memory s; world := w1;
        calls := calls s ++
          [StorageCreateMessage (set_Sender message (Some (stamp_sender user)))] |}).
Proof.
  intros Hid Hrs Htopic Hcreate.
  unfold createMessage. rewrite Hid. unfold bind, call.
  rewrite Hcreate. simpl. rewrite Hrs, Htopic. simpl. by destruct err.
Qed.

(** When the store cannot resolve the recipients to tokens, its error is
    returned with a nil message and nothing is sent, whatever tokens
    come with the error; the message has been handed to the store before
    and is not taken back. *)
Theorem createMessage_resolution_failure
    (user : option ShibbolethUser) (message : Message) (s : machine W)
    (persisted : option Message) (err : error) (w1 w2 : W)
    (tokens : list string) (e : string) :
  Message_ID message = None →
  Recipients message ≠ [] →
  storage_CreateMessage (storage app)
    (set_Sender message (Some (stamp_sender user))) (world s)
    = ((persisted, err), w1) →
  storage_GetFirebaseTokensByRecipients (storage app) (Recipients message) w1
    = ((tokens, Some e), w2) →
  createMessage app user message s =
    (Returned (None, Some e),
     {| memory := memory s; world := w2;
        calls := calls s ++
          [StorageCreateMessage (set_Sender message (Some (stamp_sender user)));
           StorageGetFirebaseTokensByRecipients (Recipients message)] |}).
Proof.
  intros Hid Hrs Hcreate Hresolve.
  unfold createMessage. rewrite Hid. unfold bind at 1. unfold call at 1.
  rewrite Hcreate. simpl.
  rewrite bool_decide_eq_true_2 by (destruct (Recipients message); [done | simpl; lia]).
  unfold bind at 1. unfold call at 1. simpl. rewrite Hresolve.
  unfold ret. by rewrite <- app_assoc.
Qed.

(** With recipients, whether the store kept the message or not and
    whether the draft names a topic or not: the calls to the gateway are
    the sends of the message's subject, body and data to the resolved
    tokens, one each and in order, and no broadcast.  The lines printed
    are lines for some of these tokens, each with a nil error in the
    place of the error of the send.  The result is the store's. *)
Theorem createMessage_recipients_exclude_broadcast
    (user : option ShibbolethUser) (message : Message) (s : machine W)
    (persisted : option Message) (err : error) (w1 w2 : W) (tokens : list string) :
  Message_ID message = None →
  Recipients message ≠ [] →
  storage_CreateMessage (storage app)
    (set_Sender message (Some (stamp_sender user))) (world s)
    = ((persisted, err), w1) →
  storage_GetFirebaseTokensByRecipients (storage app) (Recipients message) w1
    = ((tokens, None), w2) →
  ∃ s' lines,
    createMessage app user message s =
      (Returned (match err with Some _ => None | None => persisted end, err), s') ∧
    filter is_gateway_call (calls s') =
      filter is_gateway_call (calls s) ++
        map (send_of (set_Sender message (Some (stamp_sender user)))) tokens ∧
    printed (calls s') = printed (calls s) ++ lines ∧
    sublist lines (map failed_send_line tokens).
Proof.
  intros Hid Hrs Hcreate Hresolve.
  unfold createMessage. rewrite Hid. unfold bind at 1. unfold call at 1.
  rewrite Hcreate. simpl.
  rewrite bool_decide_eq_true_2 by (destruct (Recipients message); [done | simpl; lia]).
  unfold bind at 1. unfold call at 1. simpl. rewrite Hresolve.
  set (m := set_Sender message (Some (stamp_sender user))).
  set (s2 := {| memory := memory s; world := w2; calls := _ |}).
  assert (Hloop : ∃ s' lines,
    (if bool_decide (0 < length tokens)
     then for_range tokens (send_to_token app m None) else ret tt) s2
      = (Returned tt, s') ∧
    filter is_gateway_call (calls s') =
      filter is_gateway_call (calls s2) ++ map (send_of m) tokens ∧
    printed (calls s') = printed (calls s2) ++ lines ∧
    sublist lines (map failed_send_line tokens)).
  { case_bool_decide as Hlen.
    - destruct (for_range_observed app m tokens s2) as (s' & lines & H1 & H2 & H3 & H4 & _).
      by exists s', lines.
    - exists s2, []. destruct tokens; [ | simpl in Hlen; lia].
      simpl. by rewrite !app_nil_r. }
  destruct Hloop as (s' & lines & Hrun & Hg & Hp & Hl).
  exists s', lines. unfold bind. rewrite Hrun.
  split; [unfold finish; by destruct err | ].
  rewrite Hg, Hp. unfold s2. simpl.
  rewrite !printed_app, !filter_app. simpl. by rewrite !app_nil_r.
Qed.

(** With a topic and no recipients, one broadcast of the message's
    subject and body follows the call to the store, and the result is
    decided by the broadcast: its error with a nil message, or a nil
    error with whatever message the store returned. *)
Theorem createMessage_topic_result_is_the_broadcast's
    (user : option ShibbolethUser) (message : Message) (s : machine W)
    (persisted : option Message) (err : error) (w1 : W) (topic : string)
    (e2 : error) (w2 : W) :
  Message_ID message = None →
  Recipients message = [] →
  load (memory s) (Topic message) = Some topic →
  storage_CreateMessage (storage app)
    (set_Sender message (Some (stamp_sender user))) (world s)
    = ((persisted, err), w1) →
  firebase_SendNotificationToTopic (firebase app) topic (Subject message)
    (Body message) w1 = (e2, w2) →
  createMessage app user message s =
    (Returned (match e2 with Some _ => None | None => persisted end, e2),
     {| memory := memory s; world := w2;
        calls := calls s ++
          [StorageCreateMessage (set_Sender message (Some (stamp_sender user)));
           FirebaseSendNotificationToTopic topic (Subject message) (Body message)] |}).
Proof.
  intros Hid Hrs Hload Hcreate Hsend.
  unfold createMessage. rewrite Hid. unfold bind at 1. unfold call at 1.
  rewrite Hcreate. simpl. rewrite Hrs. simpl.
  destruct (Topic message) as [l|] eqn:Ht; [ | discriminate Hload].
  unfold bind, deref, call. cbn [memory world calls]. rewrite Hload.
  cbn [memory world calls]. rewrite Hsend.
  rewrite <- app_assoc. by destruct e2.
Qed.
End create_paths.

Section create_paths_runs.
Import model core notions observe.

Lemma createMessage_with_id_is_refused_witness :
  load lab.mem (Message_ID lab.alice_to_bob) = Some "m1" ∧
  createMessage (lab.lab_app true ["t1"] true []) (Some lab.alice)
    lab.alice_to_bob (lab.boot ∅) =
    (Returned (None, Some "message with id (m1): is already sent"), lab.boot ∅).
Proof.
  split; [reflexivity | ].
  exact (createMessage_with_id_is_refused (lab.lab_app true ["t1"] true [])
           (Some lab.alice) lab.alice_to_bob (lab.boot ∅) "m1" eq_refl).
Defined.

Lemma createMessage_ignores_sender_of_draft_witness :
  ∃ rest,
    calls (createMessage (lab.lab_app true ["t1"] true []) (Some lab.bob)
             (set_Sender (lab.draft [lab.to_bob] None)
                (Some {| Sender_Type := "user"; Sender_User := Some lab.alice |}))
             (lab.boot ∅)).2
    = calls (lab.boot ∅) ++
      StorageCreateMessage
        (set_Sender (lab.draft [lab.to_bob] None) (Some (stamp_sender (Some lab.bob))))
      :: rest.
Proof.
  exact (proj1 (proj2 (createMessage_ignores_sender_of_draft
           (lab.lab_app true ["t1"] true []) (Some lab.bob)
           (lab.draft [lab.to_bob] None)
           (Some {| Sender_Type := "user"; Sender_User := Some lab.alice |})
           (lab.boot ∅))) eq_refl).
Defined.

Lemma createMessage_without_audience_witness :
  createMessage (lab.lab_app true ["t1"] true []) None (lab.draft [] None) (lab.boot ∅) =
    (Returned (Some (lab.with_id (set_Sender (lab.draft [] None)
                                    (Some (stamp_sender None)))), None),
     {| memory := lab.mem;
        world := <["m1" := lab.with_id (set_Sender (lab.draft [] None)
                                          (Some (stamp_sender None)))]> ∅;
        calls := [StorageCreateMessage
                    (set_Sender (lab.draft [] None) (Some (stamp_sender None)))] |}).
Proof.
  exact (createMessage_without_audience (lab.lab_app true ["t1"] true []) None
           (lab.draft [] None) (lab.boot ∅) _ None _ eq_refl eq_refl eq_refl eq_refl).
Defined.
End create_paths_runs.

Section create_paths_more_runs.
Import model core notions observe.

Lemma createMessage_resolution_failure_witness :
  createMessage lab_more.blind_app None (lab.draft [lab.to_bob] None) (lab.boot ∅) =
    (Returned (None, Some "storage: query failed"),
     {| memory := lab.mem;
        world := <["m1" := lab.system_to_bob]> ∅;
        calls := [StorageCreateMessage
                    (set_Sender (lab.draft [lab.to_bob] None) (Some (stamp_sender None)));
                  StorageGetFirebaseTokensByRecipients [lab.to_bob]] |}).
Proof.
  apply (createMessage_resolution_failure lab_more.blind_app None
           (lab.draft [lab.to_bob] None) (lab.boot ∅)
           (Some lab.system_to_bob) None
           (<["m1" := lab.system_to_bob]> ∅) (<["m1" := lab.system_to_bob]> ∅)
           ["t1"] "storage: query failed").
  - reflexivity.
  - discriminate.
  - reflexivity.
  - reflexivity.
Defined.

Lemma createMessage_recipients_exclude_broadcast_witness :
  ∃ s' lines,
    createMessage (lab.lab_app true ["t1"; "t2"] true ["t1"]) None
      lab_more.to_bob_and_sports (lab.boot ∅) =
      (Returned (Some (lab.with_id (set_Sender lab_more.to_bob_and_sports
                                      (Some (stamp_sender None)))), None), s') ∧
    filter is_gateway_call (calls s') =
      [FirebaseSendNotificationToToken "t1" "Game day" "Kick-off at noon" ∅;
       FirebaseSendNotificationToToken "t2" "Game day" "Kick-off at noon" ∅] ∧
    printed (calls s') = lines ∧
    sublist lines [failed_send_line "t1"; failed_send_line "t2"].
Proof.
  apply (createMessage_recipients_exclude_broadcast
           (lab.lab_app true ["t1"; "t2"] true ["t1"]) None
           lab_more.to_bob_and_sports (lab.boot ∅)
           (Some (lab.with_id (set_Sender lab_more.to_bob_and_sports
                                 (Some (stamp_sender None))))) None
           (<["m1" := lab.with_id (set_Sender lab_more.to_bob_and_sports
                                     (Some (stamp_sender None)))]> ∅)
           (<["m1" := lab.with_id (set_Sender lab_more.to_bob_and_sports
                                     (Some (stamp_sender None)))]> ∅)
           ["t1"; "t2"]).
  - reflexivity.
  - discriminate.
  - reflexivity.
  - reflexivity.
Defined.

Lemma createMessage_topic_result_is_the_broadcast's_witness :
  createMessage (lab.lab_app true [] false []) None
    (lab.draft [] (Some 4%positive)) (lab.boot ∅) =
    (Returned (None, lab.rejected),
     {| memory := lab.mem;
        world := <["m1" := lab.with_id (set_Sender (lab.draft [] (Some 4%positive))
                                          (Some (stamp_sender None)))]> ∅;
        calls := [StorageCreateMessage
                    (set_Sender (lab.draft [] (Some 4%positive))
                       (Some (stamp_sender None)));
                  FirebaseSendNotificationToTopic "sports" "Game day"
                    "Kick-off at noon"] |}).
Proof.
  exact (createMessage_topic_result_is_the_broadcast's
           (lab.lab_app true [] false []) None
           (lab.draft [] (Some 4%positive)) (lab.boot ∅) _ None _ "sports"
           lab.rejected _ eq_refl eq_refl eq_refl eq_refl eq_refl).
Defined.
End create_paths_more_runs.

(** * More on subscriptions and updates *)
Section more_services.
Import model core notions observe.
Context {W : Type} (app : Application W).

(** Without identity and with a token, the device is subscribed (or
    unsubscribed) at the gateway only: the store is not called, and the
    gateway's answer is the result. *)
Theorem anonymous_subscription_skips_the_store
    (token topic : string) (s : machine W) :
  token ≠ "" →
  subscribeToTopic app token None topic s =
    (let '(e, w) := firebase_SubscribeToTopic (firebase app) token topic (world s) in
     (Returned e, {| memory := memory s; world := w;
                     calls := calls s ++ [FirebaseSubscribeToTopic token topic] |})) ∧
  unsubscribeToTopic app token None topic s =
    (let '(e, w) := firebase_UnsubscribeToTopic (firebase app) token topic (world s) in
     (Returned e, {| memory := memory s; world := w;
                     calls := calls s ++ [FirebaseUnsubscribeToTopic token topic] |})).
Proof.
  intros Htoken. unfold subscribeToTopic, unsubscribeToTopic.
  rewrite bool_decide_eq_true_2 by done. split; reflexivity.
Qed.

(** A message of the system, one whose stored sender has no user, can be
    updated by nobody: every caller, with or without identity, gets the
    "only creator" error and the store's [UpdateMessage] is not
    called. *)
Theorem updateMessage_system_message_is_read_only
    (user : option ShibbolethUser) (message : Message) (s : machine W)
    (id : string) (persisted : Message) (sender : Sender) (w1 : W) :
  load (memory s) (Message_ID message) = Some id →
  storage_GetMessage (storage app) id (world s) = ((Some persisted, None), w1) →
  Message_Sender persisted = Some sender →
  Sender_User sender = None →
  updateMessage app user message s =
    (Returned (None, Some err_only_creator),
     {| memory := memory s; world := w1;
        calls := calls s ++ [StorageGetMessage id] |}).
Proof.
  intros Hload Hget Hsender Huser. unfold updateMessage.
  destruct (Message_ID message) as [l|] eqn:Hid; [ | discriminate Hload].
  unfold bind, deref, call. rewrite Hload, Hget. simpl.
  rewrite Hsender. simpl. by rewrite Huser.
Qed.

(** An update never reaches the gateway and prints nothing, whatever its
    outcome, a panic included: an edited message is not delivered
    again.  It calls the store at most twice. *)
Theorem updateMessage_never_calls_the_gateway
    (user : option ShibbolethUser) (message : Message) (s : machine W) :
  let s' := (updateMessage app user message s).2 in
  filter is_gateway_call (calls s') = filter is_gateway_call (calls s) ∧
  printed (calls s') = printed (calls s) ∧
  (length (filter is_storage_call (calls s'))
     ≤ 2 + length (filter is_storage_call (calls s)))%nat.
Proof.
  remember (updateMessage app user message s) as r eqn:Hr. cbv zeta.
  unfold updateMessage in Hr.
  destruct (Message_ID message) as [l|];
    [ | subst r; simpl; repeat split; lia].
  unfold bind, deref in Hr. destruct (load (memory s) (Some l)) as [id|];
    [ | subst r; simpl; repeat split; lia].
  unfold call at 1 in Hr.
  destruct (storage_GetMessage (storage app) id (world s)) as [[found err] w1].
  assert (Hfirst : ∀ rest,
    filter is_gateway_call ((calls s ++ [StorageGetMessage id]) ++ rest)
      = filter is_gateway_call (calls s) ++ filter is_gateway_call rest ∧
    printed ((calls s ++ [StorageGetMessage id]) ++ rest)
      = printed (calls s) ++ printed rest ∧
    length (filter is_storage_call ((calls s ++ [StorageGetMessage id]) ++ rest))
      = (1 + length (filter is_storage_call (calls s))
           + length (filter is_storage_call rest))%nat).
  { intros rest. rewrite !filter_app, !printed_app, !length_app. simpl.
    rewrite !app_nil_r. repeat split; lia. }
  assert (Hstop :
    filter is_gateway_call (calls s ++ [StorageGetMessage id])
      = filter is_gateway_call (calls s) ∧
    printed (calls s ++ [StorageGetMessage id]) = printed (calls s) ∧
    (length (filter is_storage_call (calls s ++ [StorageGetMessage id]))
       ≤ 2 + length (filter is_storage_call (calls s)))%nat).
  { destruct (Hfirst []) as (H1 & H2 & H3).
    rewrite app_nil_r in H1, H2, H3. rewrite H1, H2, H3. simpl.
    rewrite !app_nil_r. repeat split; lia. }
  destruct err as [e|]; [subst r; exact Hstop | ].
  destruct found as [persisted|]; [ | subst r; exact Hstop].
  simpl in Hr. destruct (Message_Sender persisted) as [sender|];
    [ | subst r; exact Hstop].
  simpl in Hr. destruct (Sender_User sender) as [su|]; [ | subst r; exact Hstop].
  destruct user as [u|]; [ | subst r; exact Hstop].
  simpl in Hr. destruct (ptr_eqb (Email su) (Email u)); [ | subst r; exact Hstop].
  unfold call in Hr. simpl in Hr.
  destruct (storage_UpdateMessage (storage app) message w1) as [r' w2].
  subst r. simpl.
  destruct (Hfirst [StorageUpdateMessage message]) as (H1 & H2 & H3).
  rewrite H1, H2, H3. simpl. rewrite !app_nil_r. repeat split; lia.
Qed.
End more_services.

Section more_services_runs.
Import model core notions observe.

Lemma anonymous_subscription_skips_the_store_witness :
  subscribeToTopic (lab.lab_app false [] true []) "T1" None "sports" (lab.boot ∅) =
    (Returned None,
     {| memory := lab.mem; world := ∅;
        calls := [FirebaseSubscribeToTopic "T1" "sports"] |}).
Proof.
  exact (proj1 (anonymous_subscription_skips_the_store
           (lab.lab_app false [] true []) "T1" "sports" (lab.boot ∅)
           ltac:(discriminate))).
Defined.

Lemma updateMessage_system_message_is_read_only_witness :
  updateMessage (lab.lab_app true [] true []) None lab.system_to_bob
    (lab.boot (<["m1" := lab_more.stored_system_message]> ∅)) =
    (Returned (None, Some err_only_creator),
     {| memory := lab.mem; world := <["m1" := lab_more.stored_system_message]> ∅;
        calls := [StorageGetMessage "m1"] |}).
Proof.
  exact (updateMessage_system_message_is_read_only (lab.lab_app true [] true [])
           None lab.system_to_bob
           (lab.boot (<["m1" := lab_more.stored_system_message]> ∅))
           "m1" lab_more.stored_system_message
           {| Sender_Type := "system"; Sender_User := None |}
           (<["m1" := lab_more.stored_system_message]> ∅)
           eq_refl eq_refl eq_refl eq_refl).
Defined.

Lemma updateMessage_missing_witness :
  updateMessage (lab.lab_app true [] true []) (Some lab.alice) lab.alice_to_bob
    (lab.boot ∅) =
    (Returned (None, Some err_missing),
     {| memory := lab.mem; world := ∅; calls := [StorageGetMessage "m1"] |}) ∧
  updateMessage lab_more.blind_app (Some lab.alice) lab.alice_to_bob
    (lab.boot (<["m1" := lab.alice_to_bob]> ∅)) =
    (Returned (None, Some err_missing),
     {| memory := lab.mem; world := <["m1" := lab.alice_to_bob]> ∅;
        calls := [StorageGetMessage "m1"] |}).
Proof.
  split.
  - exact (proj2 (updateMessage_missing (lab.lab_app true [] true [])
             (Some lab.alice) lab.alice_to_bob (lab.boot ∅))
             "m1" None None ∅ eq_refl eq_refl (or_introl eq_refl)).
  - exact (proj2 (updateMessage_missing lab_more.blind_app
             (Some lab.alice) lab.alice_to_bob
             (lab.boot (<["m1" := lab.alice_to_bob]> ∅)))
             "m1" None (Some "storage: query failed") (<["m1" := lab.alice_to_bob]> ∅)
             eq_refl eq_refl (or_introl eq_refl)).
Defined.

Lemma updateMessage_with_identity_witness :
  updateMessage (lab.lab_app true [] true []) (Some lab.bob) lab.alice_to_bob
    (lab.boot (<["m1" := lab.alice_to_bob]> ∅)) =
    (Returned (None, Some err_only_creator),
     {| memory := lab.mem; world := <["m1" := lab.alice_to_bob]> ∅;
        calls := [StorageGetMessage "m1"] |}) ∧
  updateMessage (lab.lab_app true [] true []) (Some lab.alice_as_stored)
    lab.alice_to_bob (lab.boot (<["m1" := lab.alice_to_bob]> ∅)) =
    call (StorageUpdateMessage lab.alice_to_bob)
      (storage_UpdateMessage (storage (lab.lab_app true [] true [])) lab.alice_to_bob)
      {| memory := lab.mem; world := <["m1" := lab.alice_to_bob]> ∅;
         calls := [StorageGetMessage "m1"] |}.
Proof.
  assert (Hget : storage_GetMessage (storage (lab.lab_app true [] true [])) "m1"
                   (world (lab.boot (<["m1" := lab.alice_to_bob]> ∅)))
                 = ((Some lab.alice_to_bob, None), <["m1" := lab.alice_to_bob]> ∅)).
  { vm_compute. reflexivity. }
  split.
  - apply (proj1 (updateMessage_with_identity (lab.lab_app true [] true [])
             lab.bob lab.alice_to_bob (lab.boot (<["m1" := lab.alice_to_bob]> ∅))
             "m1" lab.alice_to_bob
             {| Sender_Type := "user"; Sender_User := Some lab.alice_as_stored |}
             (<["m1" := lab.alice_to_bob]> ∅) eq_refl Hget eq_refl)).
    intros su Hsu. inversion Hsu; subst su. discriminate.
  - apply (proj2 (proj2 (updateMessage_with_identity (lab.lab_app true [] true [])
             lab.alice_as_stored lab.alice_to_bob
             (lab.boot (<["m1" := lab.alice_to_bob]> ∅))
             "m1" lab.alice_to_bob
             {| Sender_Type := "user"; Sender_User := Some lab.alice_as_stored |}
             (<["m1" := lab.alice_to_bob]> ∅) eq_refl Hget eq_refl)
             lab.alice_as_stored eq_refl eq_refl)).
Defined.
End more_services_runs.

(** * Package main: reading the environment and starting up *)
Section startup.
Import main.

Lemma getEnvKey_frame (key : string) (required : bool) (q : process) :
  ∃ r q', getEnvKey key required q = (r, q') ∧
    Version q' = Version q ∧ Build q' = Build q ∧ environ q' = environ q ∧
    filter is_start (events q') = filter is_start (events q) ∧
    (Version q ≠ "dev" →
       filter is_value_line (events q') = filter is_value_line (events q)) ∧
    (∃ more, events q' = events q ++ more) ∧
    match environ q !! key with
    | Some v =>
        r = Running v ∧
        (Version q = "dev" → events q' = events q ++ [LogPrintf "%s=%s" [key; v]])
    | None =>
        if required then
          r = Exited 1 ∧
          events q' = events q ++
            [LogFatal ("No provided environment variable for " +:+ key)]
        else r = Running ""
    end.
Proof.
  unfold getEnvKey. destruct (environ q !! key) as [v|] eqn:E; simpl.
  - unfold pbind, pret, printEnvVar, log_Printf, emit. case_bool_decide as Hdev.
    + eexists _, _. split; [reflexivity | ]. simpl.
      rewrite !filter_app. simpl. rewrite !app_nil_r.
      repeat split; try done. by eexists.
    + exists (Running v), q. repeat split; try done.
      exists []. by rewrite app_nil_r.
  - destruct required.
    + unfold pbind, log_Fatal. eexists _, _. split; [reflexivity | ]. simpl.
      rewrite !filter_app. simpl. rewrite !app_nil_r.
      repeat split; try done. by eexists.
    + unfold pbind, pret, printEnvVar, log_Printf, emit. simpl.
      case_bool_decide as Hdev.
      * eexists _, _. split; [reflexivity | ]. simpl.
        rewrite !filter_app. simpl. rewrite !app_nil_r.
        repeat split; try done. eexists. by rewrite <- app_assoc.
      * eexists _, _. split; [reflexivity | ]. simpl.
        rewrite !filter_app. simpl. rewrite !app_nil_r.
        repeat split; try done. by eexists.
Qed.
End startup.

Section startup_order.
Import main.

(** The state after the first statement of [main]. *)
Lemma main_unfold (drivers : Drivers) (p : process) :
  ∃ p0, Version p0 = (if bool_decide (String.length (Version p) = 0) then "dev" else Version p) ∧
        Build p0 = Build p ∧ environ p0 = environ p ∧ events p0 = events p ∧
  main drivers p =
  pbind (getEnvKey "PORT" true) (λ port,
  pbind (getEnvKey "MONGO_AUTH" true) (λ mongoDBAuth,
  pbind (getEnvKey "MONGO_DATABASE" true) (λ mongoDBName,
  pbind (getEnvKey "MONGO_TIMEOUT" false) (λ mongoTimeout,
  pbind (emit (StorageAdapterStart mongoDBAuth mongoDBName mongoTimeout)) (λ _,
  pbind (match storage_Start drivers mongoDBAuth mongoDBName mongoTimeout with
         | Some e => log_Fatal ("Cannot start the mongoDB adapter - " +:+ e)
         | None => pret tt
         end) (λ _,
  pbind (getEnvKey "FIREBASE_PROJECT_ID" true) (λ firebaseProjectID,
  pbind (getEnvKey "FIREBASE_AUTH" true) (λ firebaseAuth,
  pbind (emit (FirebaseAdapterStart firebaseAuth firebaseProjectID)) (λ _,
  pbind (match firebase_Start drivers firebaseAuth firebaseProjectID with
         | Some e => log_Fatal ("Cannot start the Firebase adapter - " +:+ e)
         | None => pret tt
         end) (λ _,
  pbind (λ p, emit (ApplicationStart (Version p) (Build p)) p) (λ _,
  pbind (getEnvKey "HOST" true) (λ host,
  pbind (getEnvKey "INTERNAL_API_KEY" true) (λ internalAPIKey,
  pbind (getEnvKey "ROKWIRE_CORE_AUTH_PRIVATE_KEY" true) (λ coreAuthPrivateKey,
  emit (WebAdapterStart host port internalAPIKey coreAuthPrivateKey)))))))))))))))
  p0.
Proof.
  unfold main. unfold pbind at 1. case_bool_decide.
  - exists {| Version := "dev"; Build := Build p; environ := environ p;
              events := events p |}.
    repeat split; reflexivity.
  - exists p. repeat split; reflexivity.
Qed.

Ltac look Hmain :=
  match type of Hmain with
  | context [pbind (getEnvKey ?key ?req) ?k ?q] =>
      let r := fresh "r" in
      let q' := fresh "q" in
      let HV := fresh "HV" in let HB := fresh "HB" in let HE := fresh "HE" in
      let HS := fresh "HS" in let HL := fresh "HL" in let HM := fresh "HM" in
      let HC := fresh "HC" in
      let Hrun := fresh "Hrun" in
      destruct (getEnvKey_frame key req q)
        as (r & q' & Hrun & HV & HB & HE & HS & HL & HM & HC);
      unfold pbind at 1 in Hmain; rewrite Hrun in Hmain; clear Hrun
  end.

(** With the eight required variables set and both adapters starting,
    [main] runs to its end and starts, in this order, the storage
    adapter, the Firebase adapter, the application and the web adapter,
    each with the values read; [MONGO_TIMEOUT] may be unset, and an
    empty [Version] has become "dev". *)
Theorem main_starts_everything_when_configured (drivers : Drivers) (p : process)
    (port auth name fproj fauth host key pem : string) :
  environ p !! "PORT" = Some port →
  environ p !! "MONGO_AUTH" = Some auth →
  environ p !! "MONGO_DATABASE" = Some name →
  environ p !! "FIREBASE_PROJECT_ID" = Some fproj →
  environ p !! "FIREBASE_AUTH" = Some fauth →
  environ p !! "HOST" = Some host →
  environ p !! "INTERNAL_API_KEY" = Some key →
  environ p !! "ROKWIRE_CORE_AUTH_PRIVATE_KEY" = Some pem →
  storage_Start drivers auth name (default "" (environ p !! "MONGO_TIMEOUT")) = None →
  firebase_Start drivers fauth fproj = None →
  (main drivers p).1 = Running tt ∧
  filter is_start (events (main drivers p).2) =
    filter is_start (events p) ++
      [StorageAdapterStart auth name (default "" (environ p !! "MONGO_TIMEOUT"));
       FirebaseAdapterStart fauth fproj;
       ApplicationStart
         (if bool_decide (String.length (Version p) = 0) then "dev" else Version p)
         (Build p);
       WebAdapterStart host port key pem].
Proof.
  intros H1 H2 H3 H4 H5 H6 H7 H8 Hs Hf.
  destruct (main drivers p) as [out pf] eqn:Hmain.
  destruct (main_unfold drivers p) as (p0 & HV0 & HB0 & HE0 & HS0 & Hp0).
  rewrite Hp0 in Hmain. clear Hp0.
  look Hmain. rewrite HE0, H1 in HC. destruct HC as [-> _]. rewrite HE0 in HE.
  look Hmain. rewrite HE, H2 in HC. destruct HC as [-> _]. rewrite HE in HE1.
  look Hmain. rewrite HE1, H3 in HC. destruct HC as [-> _]. rewrite HE1 in HE2.
  look Hmain. rewrite HE2 in HE3.
  assert (Ht : r = Running (default "" (environ p !! "MONGO_TIMEOUT"))).
  { rewrite HE2 in HC. destruct (environ p !! "MONGO_TIMEOUT"); [by destruct HC | done]. }
  subst r. clear HC.
  unfold pbind at 1 in Hmain. unfold emit at 1 in Hmain.
  unfold pbind at 1 in Hmain. rewrite Hs in Hmain. unfold pret at 1 in Hmain.
  look Hmain. cbn [environ] in HC, HE4. rewrite HE3, H4 in HC. destruct HC as [-> _].
  rewrite HE3 in HE4.
  look Hmain. rewrite HE4, H5 in HC. destruct HC as [-> _]. rewrite HE4 in HE5.
  unfold pbind at 1 in Hmain. unfold emit at 1 in Hmain.
  unfold pbind at 1 in Hmain. rewrite Hf in Hmain. unfold pret at 1 in Hmain.
  unfold pbind at 1 in Hmain. unfold emit at 1 in Hmain.
  look Hmain. cbn [environ] in HC, HE6. rewrite HE5, H6 in HC. destruct HC as [-> _].
  rewrite HE5 in HE6.
  look Hmain. rewrite HE6, H7 in HC. destruct HC as [-> _]. rewrite HE6 in HE7.
  look Hmain. rewrite HE7, H8 in HC. destruct HC as [-> _].
  unfold emit in Hmain. inversion Hmain; subst out pf; clear Hmain.
  split; [reflexivity | ]. cbn [snd events Version Build] in *.
  rewrite filter_app, HS8, HS7, HS6.
  rewrite !filter_app, HS5, HS4.
  rewrite !filter_app, HS3, HS2, HS1, HS, HS0. simpl.
  rewrite HV5, HV4, HB5, HB4. simpl. rewrite HV3, HV2, HV1, HV, HV0, HB3, HB2, HB1, HB, HB0.
  by rewrite <- !app_assoc.
Qed.



(** When the storage adapter does not start, main logs the error and
    exits with code 1; the Firebase adapter, the application and the web
    adapter are not started. *)
Theorem main_exits_when_storage_does_not_start (drivers : Drivers) (p : process)
    (port auth name e : string) :
  environ p !! "PORT" = Some port →
  environ p !! "MONGO_AUTH" = Some auth →
  environ p !! "MONGO_DATABASE" = Some name →
  storage_Start drivers auth name (default "" (environ p !! "MONGO_TIMEOUT")) = Some e →
  (main drivers p).1 = Exited 1 ∧
  last (events (main drivers p).2) =
    Some (LogFatal ("Cannot start the mongoDB adapter - " +:+ e)) ∧
  filter is_start (events (main drivers p).2) =
    filter is_start (events p) ++
      [StorageAdapterStart auth name (default "" (environ p !! "MONGO_TIMEOUT"))].
Proof.
  intros H1 H2 H3 Hs.
  destruct (main drivers p) as [out pf] eqn:Hmain.
  destruct (main_unfold drivers p) as (p0 & HV0 & HB0 & HE0 & HS0 & Hp0).
  rewrite Hp0 in Hmain. clear Hp0.
  look Hmain. rewrite HE0, H1 in HC. destruct HC as [-> _]. rewrite HE0 in HE.
  look Hmain. rewrite HE, H2 in HC. destruct HC as [-> _]. rewrite HE in HE1.
  look Hmain. rewrite HE1, H3 in HC. destruct HC as [-> _]. rewrite HE1 in HE2.
  look Hmain. rewrite HE2 in HE3.
  assert (Ht : r = Running (default "" (environ p !! "MONGO_TIMEOUT"))).
  { rewrite HE2 in HC. destruct (environ p !! "MONGO_TIMEOUT"); [by destruct HC | done]. }
  subst r. clear HC.
  unfold pbind at 1 in Hmain. unfold emit at 1 in Hmain.
  unfold pbind at 1 in Hmain. rewrite Hs in Hmain.
  unfold log_Fatal in Hmain. inversion Hmain; subst out pf; clear Hmain.
  cbn [fst snd events]. split; [reflexivity | ]. split.
  - by rewrite last_snoc.
  - rewrite !filter_app, HS3, HS2, HS1, HS, HS0. simpl. by rewrite app_nil_r.
Qed.
End startup_order.

Section logging.
Import main.

(** A program that keeps the version and, unless the version is "dev",
    writes no line with the value of a variable. *)
Local Abbreviation quiet c :=
  (∀ q, Version (c q).2 = Version q ∧
        (Version q ≠ "dev" →
         filter is_value_line (events (c q).2) = filter is_value_line (events q))).

(** A program that only adds events. *)
Local Abbreviation grows c :=
  (∀ q, ∃ more, events (c q).2 = events q ++ more).














(** [getEnvKey] returns the value of a variable that is set.  For a
    variable that is not set it exits with code 1 after a fatal log line
    when the variable is required, and returns the empty string when it
    is not; so a required lookup that returns has read a variable that
    is set.  The environment and the version are left as they were. *)
Theorem getEnvKey_returns_the_variable_or_exits
    (key : string) (required : bool) (p : process) :
  (∀ v, environ p !! key = Some v → (getEnvKey key required p).1 = Running v) ∧
  (environ p !! key = None → required = true →
     (getEnvKey key required p).1 = Exited 1 ∧
     events (getEnvKey key required p).2 =
       events p ++ [LogFatal ("No provided environment variable for " +:+ key)]) ∧
  (environ p !! key = None → required = false →
     (getEnvKey key required p).1 = Running "") ∧
  (∀ v, required = true → (getEnvKey key required p).1 = Running v →
        environ p !! key = Some v) ∧
  environ (getEnvKey key required p).2 = environ p ∧
  Version (getEnvKey key required p).2 = Version p.
Proof.
  destruct (getEnvKey_frame key required p)
    as (r & q' & -> & HV & _ & HE & _ & _ & _ & HC). simpl.
  split; [ | split; [ | split; [ | split; [ | by split]]]].
  - intros v Hv. rewrite Hv in HC. by destruct HC.
  - intros Hnone ->. rewrite Hnone in HC. done.
  - intros Hnone ->. by rewrite Hnone in HC.
  - intros v -> Hr. destruct (environ p !! key) as [v'|].
    + destruct HC as [-> _]. by inversion Hr.
    + destruct HC as [-> _]. discriminate Hr.
Qed.
End logging.

Section startup_runs.
Import main.

Lemma getEnvKey_returns_the_variable_or_exits_witness :
  environ (fresh "1.0.3" full_environ) !! "PORT" = Some "80" ∧
  (getEnvKey "PORT" true (fresh "1.0.3" full_environ)).1 = Running "80" ∧
  environ (fresh "1.0.3" ∅) !! "PORT" = None ∧
  (getEnvKey "PORT" true (fresh "1.0.3" ∅)).1 = Exited 1 ∧
  (getEnvKey "MONGO_TIMEOUT" false (fresh "1.0.3" ∅)).1 = Running "".
Proof.
  assert (H1 : environ (fresh "1.0.3" full_environ) !! "PORT" = Some "80")
    by (vm_compute; reflexivity).
  assert (H2 : environ (fresh "1.0.3" ∅) !! "PORT" = None) by reflexivity.
  assert (H3 : environ (fresh "1.0.3" ∅) !! "MONGO_TIMEOUT" = None) by reflexivity.
  split; [exact H1 | ]. split.
  - exact (proj1 (getEnvKey_returns_the_variable_or_exits "PORT" true
                    (fresh "1.0.3" full_environ)) "80" H1).
  - split; [exact H2 | ]. split.
    + exact (proj1 (proj1 (proj2 (getEnvKey_returns_the_variable_or_exits "PORT" true
                      (fresh "1.0.3" ∅))) H2 eq_refl)).
    + exact (proj1 (proj2 (proj2 (getEnvKey_returns_the_variable_or_exits
                      "MONGO_TIMEOUT" false (fresh "1.0.3" ∅)))) H3 eq_refl).
Defined.

Lemma main_starts_everything_when_configured_witness :
  (main good_drivers (fresh "" full_environ)).1 = Running tt ∧
  filter is_start (events (main good_drivers (fresh "" full_environ)).2) =
    [StorageAdapterStart "mongodb://svc:s3cret@db" "notifications" "";
     FirebaseAdapterStart "{key}" "illinois";
     ApplicationStart "dev" "";
     WebAdapterStart "localhost" "80" "k1" "pem"].
Proof.
  assert (Ht : environ (fresh "" full_environ) !! "MONGO_TIMEOUT" = None)
    by (vm_compute; reflexivity).
  pose proof (main_starts_everything_when_configured good_drivers
           (fresh "" full_environ)
           "80" "mongodb://svc:s3cret@db" "notifications" "illinois" "{key}"
           "localhost" "k1" "pem"
           ltac:(vm_compute; reflexivity) ltac:(vm_compute; reflexivity)
           ltac:(vm_compute; reflexivity) ltac:(vm_compute; reflexivity)
           ltac:(vm_compute; reflexivity) ltac:(vm_compute; reflexivity)
           ltac:(vm_compute; reflexivity) ltac:(vm_compute; reflexivity)
           eq_refl eq_refl) as H.
  rewrite Ht in H. exact H.
Defined.


Lemma main_exits_when_storage_does_not_start_witness :
  (main no_mongo (fresh "1.0.3" full_environ)).1 = Exited 1 ∧
  last (events (main no_mongo (fresh "1.0.3" full_environ)).2) =
    Some (LogFatal "Cannot start the mongoDB adapter - no reachable servers") ∧
  filter is_start (events (main no_mongo (fresh "1.0.3" full_environ)).2) =
    [StorageAdapterStart "mongodb://svc:s3cret@db" "notifications" ""].
Proof.
  assert (Ht : environ (fresh "1.0.3" full_environ) !! "MONGO_TIMEOUT" = None)
    by (vm_compute; reflexivity).
  pose proof (main_exits_when_storage_does_not_start no_mongo
           (fresh "1.0.3" full_environ)
           "80" "mongodb://svc:s3cret@db" "notifications" "no reachable servers"
           ltac:(vm_compute; reflexivity) ltac:(vm_compute; reflexivity)
           ltac:(vm_compute; reflexivity) eq_refl) as H.
  rewrite Ht in H. exact H.
Defined.

End startup_runs.
